(** * WWPTools: a model of the Suite Plan scripts and the parameter copy tool

    The scripts are pyRevit commands: thin Python layers over the host
    application's document.  This development embeds the parts of
      - MakeOneView.pushbutton/MultipleUnits-script.py   (marketing sheets),
      - MakeKeyPlanView.pushbutton/KeyPlan-script.py     (keyplan views),
      - CopyParameter.pushbutton/changeparameter-script.py
    that carry logic of their own, and proves properties of them.

    Conventions.
      - Host numbers (binary64 in the scripts) are exact rationals [Q];
        rounding is not modelled.  A comparison of a Euclidean length with
        a non-negative bound is decided on the squares, which needs no
        square root.
      - Host calls that read or change the document run in the [Script]
        monad: a state monad over the document and a log of host calls.
      - A [while True] loop takes a fuel argument; the theorems show how
        much fuel is enough. *)

From Stdlib Require Import QArith Qabs Qminmax Lqa Lia List Ascii.
From stdpp Require Import gmap strings list pretty.

(** ** Part I: the model *)

(** *** Geometry helpers (MultipleUnits-script.py 412-425, 680-706;
    KeyPlan-script.py 96-109 is the same text as 412-425) *)

(** A host point.  The third coordinate is [Zc]: the name [Z] is taken by
    the integers. *)
Record XYZ := mkXYZ { X : Q; Y : Q; Zc : Q }.

(** A host curve, seen through the points [curve.Tessellate()] returns. *)
Record Curve := mkCurve { Tessellate : list XYZ }.

(** *** Python string helpers *)

(** [needle in s] *)
Fixpoint contains (needle s : string) : bool :=
  String.prefix needle s ||
  match s with
  | EmptyString => false
  | String _ s' => contains needle s'
  end.

(** [s.lower()], on the ASCII letters; other bytes are kept. *)
Definition lower_ascii (c : ascii) : ascii :=
  let n := nat_of_ascii c in
  if (65 <=? n)%nat && (n <=? 90)%nat then ascii_of_nat (n + 32) else c.

Fixpoint lower (s : string) : string :=
  match s with
  | EmptyString => EmptyString
  | String c s' => String (lower_ascii c) (lower s')
  end.


(** [s1 or s2] on strings: the empty string is falsy. *)
Definition str_or (s1 s2 : string) : string :=
  if decide (s1 = "") then s2 else s1.

(** Stable sort by a key, as [list.sort(key=...)] is, and its first
    element. *)
Fixpoint insert_by {A K} (leb : K -> K -> bool) (key : A -> K) (x : A)
    (l : list A) : list A :=
  match l with
  | [] => [x]
  | y :: l' =>
      if leb (key x) (key y) then x :: l else y :: insert_by leb key x l'
  end.

Definition sort_by {A K} (leb : K -> K -> bool) (key : A -> K) (l : list A)
    : list A :=
  foldr (insert_by leb key) [] l.

(** *** Host objects, as far as the scripts read them *)

Inductive StorageType := StString | StDouble | StInteger | StElementId | StNone.

(** A host parameter.  [AsString] and [AsValueString] are [None] when the
    host returns a null string. *)
Record HostParameter := mkParameter {
  param_StorageType : StorageType;
  AsString : option string;
  AsValueString : option string;
  AsDouble : Q;
  AsInteger : Z;
  IsReadOnly : bool
}.

Record BoundingBox := mkBoundingBox { bb_Min : option XYZ; bb_Max : option XYZ }.

(** [door.Location]: a point, a curve (seen through its two end points and
    its midpoint [Evaluate(0.5, True)]; [None] when [loc.Curve] is null),
    another kind of location, or an attribute that raises. *)
Inductive Location :=
| LocationPoint (Point : XYZ)
| LocationCurve (Curve : option (XYZ * XYZ * XYZ))
| LocationOther
| LocationRaises.

Record FamilySymbol := mkSymbol {
  sym_Name : option string;
  FamilyName : option string
}.

(** A door instance.  [door_Name] is [None] when [door.Name] raises,
    [Symbol] when [door.Symbol] raises or is null. *)
Record Door := mkDoor {
  door_Id : Z;
  door_Name : option string;
  SYMBOL_NAME_PARAM : option HostParameter;
  Symbol : option FamilySymbol;
  door_Location : Location;
  FacingOrientation : XYZ
}.

(** An element shown in a view, for the crop element search. *)
Record ViewElement := mkViewElement { ve_Id : Z; ve_Name : option string }.

Record View := mkView {
  view_Id : Z;
  view_Name : string;
  IsTemplate : bool;
  IsViewPlan : bool;
  Origin : XYZ;
  view_elements : list ViewElement;
  view_doors : option (list Door);
  VIEW_PLAN_ROTATION : option HostParameter;
  View_Rotation : option HostParameter
}.

(** A sheet with the boxes of its titleblock instances ([None] for one
    whose [get_BoundingBox] gives nothing or raises) and its own outline. *)
Record ViewSheet := mkSheet {
  sheet_Id : Z;
  SheetNumber : string;
  sheet_Name : string;
  sheet_titleblocks : list (option (XYZ * XYZ));
  sheet_Outline : XYZ * XYZ
}.

Record TitleBlockType := mkTitleBlockType {
  tb_Id : Z;
  tb_FamilyName : string;
  tb_Name : string;
  tb_boxes : list (option (XYZ * XYZ));
  tb_outline : XYZ * XYZ
}.

Record FilledRegionType := mkFillType { ft_Id : Z; ft_Name : string }.

(** An area.  [IsPointInArea] answers [None] when the host call raises. *)
Record Area := mkArea {
  area_Id : Z;
  area_Name : string;
  area_Number : string;
  area_params : gmap string HostParameter;
  GetBoundarySegments : list (list Curve);
  IsPointInArea : XYZ -> option bool;
  get_BoundingBox : option BoundingBox
}.

(** How a viewport's box outline can be read: the call raises, or the
    object answers to some of the three attribute pairs the script tries. *)
Inductive OutlineAccess :=
| OutlineRaises
| OutlineNames (has_Min_Max has_MinimumPoint_MaximumPoint has_Minimum_Maximum : bool).

(** A placed viewport: the centre and half size of its box. *)
Record Viewport := mkViewport {
  vp_Id : Z;
  vp_center : XYZ;
  vp_half_w : Q;
  vp_half_h : Q;
  vp_access : OutlineAccess
}.

Record Document := mkDocument {
  ActiveView : View;
  doc_views : list View;
  doc_sheets : list ViewSheet;
  doc_titleblock_types : list TitleBlockType;
  doc_fill_types : list FilledRegionType
}.

(** *** The script monad *)

Inductive ElemClass :=
| ClsView
| ClsViewSheet
| ClsFilledRegionType
| CatTitleBlockTypes.

(** What the scripts ask of the host, in the order they ask it. *)
Inductive Event :=
| Collect (c : ElemClass)
| Alert (msg title : string)
| GetConfig
| SaveConfig
| ShowDialog
| PickElements
| RequestViewChange (view : Z)
| TransactionStart (name : string)
| TransactionCommit
| DeleteElement (id : Z)
| DuplicateView (base new : Z)
| SetName (id : Z) (name : string)
| SetViewTemplate (view template : Z)
| ClearScopeBox (view : Z)
| SetCropBoxActive (view : Z)
| SetCropBoxVisible (view : Z)
| Regenerate
| RotateElement (elem : Z) (origin : XYZ) (angle : Q)
| SetRotationParameter (view : Z) (value : Q)
| SetCropShape (view : Z) (loop : list Curve)
| CreateFilledRegion (fill_type view : Z) (loop : list Curve)
| CreateSheet (titleblock sheet : Z)
| SetSheetNumber (sheet : Z) (number : string)
| SetSheetName (sheet : Z) (name : string)
| CreateViewport (sheet view viewport : Z) (at_point : XYZ)
| SetBoxCenter (viewport : Z) (center : XYZ).

(** The transaction brackets and the calls that write to the document. *)
Definition changes_document (e : Event) : bool :=
  match e with
  | Collect _ | Alert _ _ | GetConfig | SaveConfig | ShowDialog
  | PickElements | RequestViewChange _ => false
  | _ => true
  end.

Definition is_collect (e : Event) : bool :=
  match e with
  | Collect _ => true
  | _ => false
  end.

Record World := mkWorld {
  w_doc : Document;
  w_log : list Event
}.

Definition Script (A : Type) : Type := World -> A * World.

#[global] Instance script_ret : MRet Script := fun A a w => (a, w).

#[global] Instance script_bind : MBind Script :=
  fun A B k c w => let (a, w') := c w in k a w'.

Definition emit (e : Event) : Script unit :=
  fun w => (tt, mkWorld (w_doc w) (w_log w ++ [e])).

Definition get_doc : Script Document := fun w => (w_doc w, w).

Definition set_doc (d : Document) : Script unit :=
  fun w => (tt, mkWorld d (w_log w)).

(** [DB.FilteredElementCollector(doc).OfClass(DB.View)] *)
Definition collect_views : Script (list View) :=
  emit (Collect ClsView);; d ← get_doc; mret (doc_views d).

(** [DB.FilteredElementCollector(doc).OfClass(DB.ViewSheet)] *)
Definition collect_sheets : Script (list ViewSheet) :=
  emit (Collect ClsViewSheet);; d ← get_doc; mret (doc_sheets d).

(** What the scripts take from the host without computing it themselves:
    vector normalisation and the zero-length test, [atan2], number
    formatting and the random suffix of the report; whether the host
    accepts a curve in a loop, a loop as crop shape or as filled region
    boundary, a sheet number or a sheet name; and the objects the host
    creates. *)
Class HostAPI := {
  Normalize : XYZ -> XYZ;
  IsZeroLength : XYZ -> bool;
  atan2 : Q -> Q -> Q;
  format_degrees : Q -> string;
  str_float : Q -> string;
  random_suffix : string;
  Append_accepts : list Curve -> Curve -> bool;
  SetCropShape_accepts : list Curve -> bool;
  FilledRegion_accepts : list Curve -> bool;
  SheetNumber_accepts : Document -> string -> bool;
  SheetName_accepts : Document -> string -> bool;
  Duplicate : Document -> View -> View;
  ViewSheet_Create : Document -> TitleBlockType -> ViewSheet;
  CanAddViewToSheet : Document -> ViewSheet -> View -> bool;
  Viewport_Create : Document -> ViewSheet -> View -> XYZ -> option Viewport
}.

(** *** Unique names (MultipleUnits-script.py 527-554, KeyPlan-script.py 77-87) *)

(** The [while True] loop shared by both generators: starting at [index],
    return the first candidate that is not in [existing]. *)
Fixpoint first_free (candidate : nat -> string) (existing : gset string)
    (fuel index : nat) : option string :=
  match fuel with
  | O => None
  | S fuel' =>
      let c := candidate index in
      if decide (c ∈ existing) then first_free candidate existing fuel' (S index)
      else Some c
  end.

(** ["{} ({})".format(base_name, index)] *)
Definition view_candidate (base_name : string) (index : nat) : string :=
  base_name +:+ " (" +:+ pretty index +:+ ")".

(** [set(v.Name for v in ...)] *)
Definition view_names (views : list View) : gset string :=
  list_to_set (view_Name <$> views).

Definition unique_view_name (fuel : nat) (base_name : string)
    : Script (option string) :=
  views ← collect_views;
  let existing := view_names views in
  if decide (base_name ∈ existing)
  then mret (first_free (view_candidate base_name) existing fuel 1)
  else mret (Some base_name).

(** ["{}-copy{}".format(base_number, "" if index == 1 else str(index))] *)
Definition sheet_candidate (base_number : string) (index : nat) : string :=
  base_number +:+ "-copy" +:+ (if decide (index = 1) then "" else pretty index).

(** [set(s.SheetNumber for s in ... if s.SheetNumber)] *)
Definition sheet_numbers (sheets : list ViewSheet) : gset string :=
  list_to_set (filter (fun n => n ≠ "") (SheetNumber <$> sheets)).

Definition unique_sheet_number (fuel : nat) (base_number : string)
    : Script (option string) :=
  if decide (base_number = "") then mret (Some "")
  else
    sheets ← collect_sheets;
    let existing := sheet_numbers sheets in
    if decide (base_number ∈ existing)
    then mret (first_free (sheet_candidate base_number) existing fuel 1)
    else mret (Some base_number).

(** The existing names and numbers of a world. *)
Definition existing_views (w : World) : gset string :=
  view_names (doc_views (w_doc w)).

Definition existing_numbers (w : World) : gset string :=
  sheet_numbers (doc_sheets (w_doc w)).

(** *** Geometry functions *)

Section Geometry.
Local Open Scope Q_scope.

Definition dist2 (p q : XYZ) : Q :=
  (X p - X q) * (X p - X q) + (Y p - Y q) * (Y p - Y q)
  + (Zc p - Zc q) * (Zc p - Zc q).

(** [p.DistanceTo(q) > t], for a bound [0 <= t], on the squares. *)
Definition DistanceTo_gt (p q : XYZ) (t : Q) : bool :=
  if Qlt_le_dec (t * t) (dist2 p q) then true else false.

(** [if not pts or pt.DistanceTo(pts[-1]) > 1e-6: pts.append(pt)] *)
Definition push_point (pts : list XYZ) (pt : XYZ) : list XYZ :=
  match last pts with
  | None => pts ++ [pt]
  | Some l => if DistanceTo_gt pt l 1e-6 then pts ++ [pt] else pts
  end.

(** The two nested [for] loops that fill [pts]. *)
Definition tessellated_points (curves : list Curve) : list XYZ :=
  fold_left (fun pts curve => fold_left push_point (Tessellate curve) pts)
            curves [].

(** [if pts[0].DistanceTo(pts[-1]) > 1e-6: pts.append(pts[0])] *)
Definition close_loop (pts : list XYZ) : list XYZ :=
  match pts, last pts with
  | p0 :: _, Some pl => if DistanceTo_gt p0 pl 1e-6 then pts ++ [p0] else pts
  | _, _ => pts
  end.

(** [pts[i].X * pts[i + 1].Y - pts[i + 1].X * pts[i].Y] *)
Definition cross (p q : XYZ) : Q := X p * Y q - X q * Y p.

(** The pairs [(pts[i], pts[i + 1])] for [i in range(len(pts) - 1)]. *)
Definition edges (pts : list XYZ) : list (XYZ * XYZ) := zip pts (tail pts).

(** [area = 0.0; for i in ...: area += cross] *)
Definition shoelace (pts : list XYZ) : Q :=
  fold_left (fun area e => area + cross e.1 e.2) (edges pts) 0.

Definition curve_loop_area_xy (curves : list Curve) : Q :=
  let pts := tessellated_points curves in
  if (length pts <? 3)%nat then 0
  else 0.5 * shoelace (close_loop pts).

(** The three accumulators [area], [cx], [cy] of [_centroid_from_loop]. *)
Definition centroid_sums (pts : list XYZ) : Q * Q * Q :=
  fold_left
    (fun acc e =>
       let '(area, cx, cy) := acc in
       let c := cross e.1 e.2 in
       (area + c, cx + (X e.1 + X e.2) * c, cy + (Y e.1 + Y e.2) * c))
    (edges pts) (0, 0, 0).

Definition _centroid_from_loop (loop : list Curve) : option XYZ :=
  let pts := tessellated_points loop in
  if (length pts <? 3)%nat then None
  else
    let pts := close_loop pts in
    let '(area, cx, cy) := centroid_sums pts in
    if Qlt_le_dec (Qabs area) 1e-9 then None
    else
      let area := area * 0.5 in
      let cx := cx / (6 * area) in
      let cy := cy / (6 * area) in
      match pts with
      | p0 :: _ => Some (mkXYZ cx cy (Zc p0))
      | [] => None
      end.

End Geometry.

(** *** Notions used to state the geometry properties *)









(** The same closed walk, started one vertex later. *)
Definition rotate_closed (s : list XYZ) : list XYZ :=
  match s with
  | _ :: q :: tl => q :: tl ++ [q]
  | _ => s
  end.

(** *** Boundary loops and entry doors (MultipleUnits-script.py 428-449,
    600-677, 709-735, 809-851; KeyPlan-script.py 112-152) *)

Section Doors.
Context `{HostAPI}.
Local Open Scope Q_scope.

(** The loop over [loops] of [get_outer_boundary_loop]: the curves and the
    absolute area of the best loop so far. *)
Definition best_loop (loops : list (list Curve)) : option (list Curve) * Q :=
  fold_left
    (fun best curves =>
       let area_val := Qabs (curve_loop_area_xy curves) in
       if Qlt_le_dec best.2 area_val then (Some curves, area_val) else best)
    loops (None, -1).

(** [loop = DB.CurveLoop(); for curve in best_curves: loop.Append(curve)],
    with [None] as soon as the host refuses a curve. *)
Fixpoint build_loop (loop curves : list Curve) : option (list Curve) :=
  match curves with
  | [] => Some loop
  | curve :: rest =>
      if Append_accepts loop curve then build_loop (loop ++ [curve]) rest
      else None
  end.

Definition get_outer_boundary_loop (area : Area) : option (list Curve) :=
  match GetBoundarySegments area with
  | [] => None
  | loops =>
      match (best_loop loops).1 with
      | None | Some [] => None
      | Some best_curves => build_loop [] best_curves
      end
  end.

(** The rectangle of a bounding box, as four lines. *)
Definition Line_CreateBound (p q : XYZ) : Curve := mkCurve [p; q].

Definition _rect_loop_from_bbox (bbox : option BoundingBox) : option (list Curve) :=
  match bbox with
  | None => None
  | Some bbox =>
      match bb_Min bbox, bb_Max bbox with
      | Some min_pt, Some max_pt =>
          let p1 := mkXYZ (X min_pt) (Y min_pt) (Zc min_pt) in
          let p2 := mkXYZ (X max_pt) (Y min_pt) (Zc min_pt) in
          let p3 := mkXYZ (X max_pt) (Y max_pt) (Zc min_pt) in
          let p4 := mkXYZ (X min_pt) (Y max_pt) (Zc min_pt) in
          Some [Line_CreateBound p1 p2; Line_CreateBound p2 p3;
                Line_CreateBound p3 p4; Line_CreateBound p4 p1]
      | _, _ => None
      end
  end.

Definition _param_string (param : option HostParameter) : string :=
  match param with
  | None => ""
  | Some param =>
      match param_StorageType param with
      | StString => default "" (AsString param)
      | _ => default "" (AsValueString param)
      end
  end.

(** The list [parts] of [_door_name_matches]: the door's name, its type
    name parameter, and its symbol's name and family name. *)
Definition door_name_parts (door : Door) : list string :=
  [default "" (door_Name door); _param_string (SYMBOL_NAME_PARAM door)]
  ++ match Symbol door with
     | Some symbol => [default "" (sym_Name symbol); default "" (FamilyName symbol)]
     | None => []
     end.

Definition _door_name_matches (door : Door) : bool :=
  let joined :=
    lower (String.concat " " (filter (fun p => p ≠ "") (door_name_parts door))) in
  contains "entry" joined.

Definition _door_location_point (door : Door) : option XYZ :=
  match door_Location door with
  | LocationPoint p => Some p
  | LocationCurve (Some (_, _, mid)) => Some mid
  | _ => None
  end.

Definition XYZ_add (p q : XYZ) : XYZ := mkXYZ (X p + X q) (Y p + Y q) (Zc p + Zc q).
Definition XYZ_sub (p q : XYZ) : XYZ := mkXYZ (X p - X q) (Y p - Y q) (Zc p - Zc q).
Definition Multiply (p : XYZ) (k : Q) : XYZ := mkXYZ (X p * k) (Y p * k) (Zc p * k).

Definition _door_points_for_check (door : Door) : list XYZ :=
  match door_Location door with
  | LocationRaises => []
  | loc =>
      let points :=
        match loc with
        | LocationPoint p => [p]
        | LocationCurve (Some (end0, end1, mid)) => [end0; end1; mid]
        | _ => []
        end in
      let facing := FacingOrientation door in
      if IsZeroLength facing then points
      else
        let facing := Normalize facing in
        let offset := Multiply facing 1 in
        let points := points ++ ((fun pt => XYZ_add pt offset) <$> points) in
        points ++ ((fun pt => XYZ_sub pt offset) <$> points)
  end.

Definition _area_centroid (area : Area) : option XYZ :=
  match get_outer_boundary_loop area with
  | Some loop => _centroid_from_loop loop
  | None => None
  end.

(** The inner loop over the sample points: some point is in the area. *)
Definition door_in_area (area : Area) (door : Door) : bool :=
  existsb (fun pt => match IsPointInArea area pt with
                     | Some true => true
                     | _ => false
                     end)
          (_door_points_for_check door).

(** The sort key of the fallback: the distance from the door's location
    point to the centroid, here its square, or infinity ([None]). *)
Definition distance_key (centroid : XYZ) (door : Door) : option Q :=
  match _door_location_point door with
  | Some p => Some (dist2 p centroid)
  | None => None
  end.

Definition key_leb (a b : option Q) : bool :=
  match a, b with
  | Some x, Some y => Qle_bool x y
  | _, None => true
  | None, Some _ => false
  end.

Definition find_entry_door_in_area (area : option Area) (view : View)
    : option Door :=
  match area with
  | None => None
  | Some area =>
      let doors := default [] (view_doors view) in
      let matches :=
        filter (fun door => _door_name_matches door && door_in_area area door) doors in
      match matches with
      | [] =>
          match _area_centroid area with
          | Some centroid =>
              let candidates := filter (fun d => _door_name_matches d) doors in
              head (sort_by key_leb (distance_key centroid) candidates)
          | None => None
          end
      | _ => head (sort_by Z.leb door_Id matches)
      end
  end.

End Doors.

(** *** Rotating a view to a door (MultipleUnits-script.py 470-524) *)

Section Rotation.
Context `{HostAPI}.
Local Open Scope Q_scope.

Definition BasisY : XYZ := mkXYZ 0 1 0.
Definition BasisZ : XYZ := mkXYZ 0 0 1.

Definition CrossProduct (a b : XYZ) : XYZ :=
  mkXYZ (Y a * Zc b - Zc a * Y b)
        (Zc a * X b - X a * Zc b)
        (X a * Y b - Y a * X b).

Definition DotProduct (a b : XYZ) : Q := X a * X b + Y a * Y b + Zc a * Zc b.

(** [v.GetLength() < t], for a bound [0 < t], on the squares. *)
Definition GetLength_lt (v : XYZ) (t : Q) : bool :=
  if Qlt_le_dec (DotProduct v v) (t * t) then true else false.

(** The first element shown in the view that carries the view's name. *)
Definition find_crop_element (view : View) : option ViewElement :=
  if decide (view_Name view = "") then None
  else List.find (fun element => bool_decide (ve_Name element = Some (view_Name view)))
                 (view_elements view).

Definition rotate_view_to_door (view : View) (door : Door) : Script (bool * string) :=
  let facing := FacingOrientation door in
  let vec := mkXYZ (X facing) (Y facing) 0 in
  if GetLength_lt vec 1e-9 then mret (false, "Door facing vector is zero.")
  else
    let vec := Normalize vec in
    let y_axis := BasisY in
    let z_axis := BasisZ in
    let angle := atan2 (DotProduct (CrossProduct y_axis vec) z_axis)
                       (DotProduct y_axis vec) in
    if Qlt_le_dec (Qabs angle) 1e-9
    then mret (false, "Computed rotation angle is near zero.")
    else
      emit (SetCropBoxVisible (view_Id view));;
      emit Regenerate;;
      match find_crop_element view with
      | Some crop_elem =>
          emit (RotateElement (ve_Id crop_elem) (Origin view) angle);;
          mret (true, "Rotated crop element " +:+ pretty (ve_Id crop_elem)
                      +:+ " by " +:+ format_degrees angle +:+ " deg.")
      | None =>
          let angle_param :=
            match VIEW_PLAN_ROTATION view with
            | Some p => Some p
            | None => View_Rotation view
            end in
          match angle_param with
          | Some p =>
              if IsReadOnly p
              then mret (false,
                     "View rotation parameter is read-only and no crop element found.")
              else
                emit (SetRotationParameter (view_Id view) (AsDouble p + angle));;
                mret (true, "Rotated view parameter by "
                            +:+ format_degrees angle +:+ " deg.")
          | None =>
              mret (false, "No crop element found and view rotation parameter is unavailable or read-only.")
          end
      end.

End Rotation.

(** *** Keeping a viewport on the sheet (MultipleUnits-script.py 738-806) *)

Section ViewportPlacement.
Local Open Scope Q_scope.

(** The box of a viewport, from its centre and half size. *)
Definition box_min (vp : Viewport) : XYZ :=
  mkXYZ (X (vp_center vp) - vp_half_w vp) (Y (vp_center vp) - vp_half_h vp) 0.

Definition box_max (vp : Viewport) : XYZ :=
  mkXYZ (X (vp_center vp) + vp_half_w vp) (Y (vp_center vp) + vp_half_h vp) 0.

(** The outline object, with the attributes it answers to. *)
Record HostOutline := mkOutline {
  o_Min : option XYZ;
  o_Max : option XYZ;
  o_MinimumPoint : option XYZ;
  o_MaximumPoint : option XYZ;
  o_Minimum : option XYZ;
  o_Maximum : option XYZ
}.

Definition when {A} (b : bool) (a : A) : option A := if b then Some a else None.

(** [viewport.GetBoxOutline()]; [None] when the call raises. *)
Definition GetBoxOutline (vp : Viewport) : option HostOutline :=
  match vp_access vp with
  | OutlineRaises => None
  | OutlineNames a b c =>
      Some (mkOutline (when a (box_min vp)) (when a (box_max vp))
                      (when b (box_min vp)) (when b (box_max vp))
                      (when c (box_min vp)) (when c (box_max vp)))
  end.

(** [viewport.SetBoxCenter(c)]: the host moves the box, keeping its size. *)
Definition SetBoxCenter_of (vp : Viewport) (c : XYZ) : Viewport :=
  mkViewport (vp_Id vp) c (vp_half_w vp) (vp_half_h vp) (vp_access vp).

(** Python's [a or b] on objects that may be [None]. *)
Definition py_or {A} (a b : option A) : option A :=
  match a with
  | Some _ => a
  | None => b
  end.

(** The [getattr] cascade that finds the two corners of an outline. *)
Definition outline_corners (outline : HostOutline) : option (XYZ * XYZ) :=
  let outline_min := py_or (o_Min outline) (o_MinimumPoint outline) in
  let outline_max := py_or (o_Max outline) (o_MaximumPoint outline) in
  let '(outline_min, outline_max) :=
    match outline_min, outline_max with
    | Some _, Some _ => (outline_min, outline_max)
    | _, _ => (o_Minimum outline, o_Maximum outline)
    end in
  match outline_min, outline_max with
  | Some a, Some b => Some (a, b)
  | _, _ => None
  end.

Definition _clamp_viewport_center (viewport : Viewport)
    (target_center bounds_min bounds_max : XYZ) : Viewport :=
  match GetBoxOutline viewport ≫= outline_corners with
  | None =>
      SetBoxCenter_of viewport (mkXYZ (X target_center) (Y target_center) 0)
  | Some (outline_min, outline_max) =>
      let half_w := (X outline_max - X outline_min) / 2 in
      let half_h := (Y outline_max - Y outline_min) / 2 in
      let available_w := X bounds_max - X bounds_min in
      let available_h := Y bounds_max - Y bounds_min in
      let center_x :=
        if Qlt_le_dec available_w (2 * half_w)
        then (X bounds_min + X bounds_max) / 2
        else Qmax (X bounds_min + half_w)
                  (Qmin (X target_center) (X bounds_max - half_w)) in
      let center_y :=
        if Qlt_le_dec available_h (2 * half_h)
        then (Y bounds_min + Y bounds_max) / 2
        else Qmax (Y bounds_min + half_h)
                  (Qmin (Y target_center) (Y bounds_max - half_h)) in
      SetBoxCenter_of viewport (mkXYZ center_x center_y 0)
  end.

Definition _viewport_half_size (viewport : Viewport) : option (Q * Q) :=
  match GetBoxOutline viewport ≫= outline_corners with
  | None => None
  | Some (outline_min, outline_max) =>
      Some ((X outline_max - X outline_min) / 2,
            (Y outline_max - Y outline_min) / 2)
  end.

(** [_get_titleblock_bounds]: the box of the first titleblock instance
    that has one, else the outline of the sheet. *)
Definition _get_titleblock_bounds (sheet : ViewSheet) : XYZ * XYZ :=
  match List.find (fun b : option (XYZ * XYZ) => bool_decide (is_Some b))
                  (sheet_titleblocks sheet) with
  | Some (Some bbox) => bbox
  | _ => (mkXYZ (X (sheet_Outline sheet).1) (Y (sheet_Outline sheet).1) 0,
          mkXYZ (X (sheet_Outline sheet).2) (Y (sheet_Outline sheet).2) 0)
  end.

End ViewportPlacement.

(** *** The parameter copy tool (changeparameter-script.py) *)

Module ChangeParameter.

(** A selected element: its id and the parameters [LookupParameter] finds. *)
Record Element := mkElement {
  elem_Id : Z;
  elem_params : gmap string HostParameter
}.

Definition LookupParameter (element : Element) (name : string)
    : option HostParameter :=
  elem_params element !! name.

(** [str(x)] for a host string that may be null. *)
Definition py_str (x : option string) : string := default "None" x.

Definition get_parameter_value (element : Element) (param_name : string)
    : option string :=
  match LookupParameter element param_name with
  | None => None
  | Some param =>
      Some (match param_StorageType param with
            | StString => py_str (AsString param)
            | _ => py_str (AsValueString param)
            end)
  end.

(** [param.Set(value)] with a string: the host stores it in a parameter of
    storage type String and leaves any other parameter as it is. *)
Definition Parameter_Set (param : HostParameter) (value : string) : HostParameter :=
  match param_StorageType param with
  | StString =>
      mkParameter StString (Some value) (Some value)
                  (AsDouble param) (AsInteger param) (IsReadOnly param)
  | _ => param
  end.

(** The element after the call, and the boolean the function returns. *)
Definition set_parameter_value (element : Element) (param_name value : string)
    : Element * bool :=
  match LookupParameter element param_name with
  | None => (element, false)
  | Some param =>
      if IsReadOnly param then (element, false)
      else (mkElement (elem_Id element)
                      (<[param_name := Parameter_Set param value]> (elem_params element)),
            true)
  end.

(** [s.replace(old, new)] for a non-empty [old]: scan from the left; where
    [old] starts, emit [new] and skip the matched characters. *)
Fixpoint replace_go (old new : string) (skip : nat) (s : string) : string :=
  match s with
  | EmptyString => EmptyString
  | String c s' =>
      match skip with
      | S k => replace_go old new k s'
      | O =>
          if String.prefix old s
          then new +:+ replace_go old new (String.length old - 1) s'
          else String c (replace_go old new 0 s')
      end
  end.

(** For an empty [old], Python puts [new] before every character and at
    the end. *)
Fixpoint intersperse_all (new s : string) : string :=
  match s with
  | EmptyString => new
  | String c s' => new +:+ String c (intersperse_all new s')
  end.

Definition str_replace (s old new : string) : string :=
  if decide (old = "") then intersperse_all new s
  else replace_go old new 0 s.

Record Config := mkConfig {
  source_param : string;
  target_param : string;
  find_text : string;
  replace_text : string
}.

(** The body of the [for element in elements] loop: the element after it,
    and whether it counted as a success. *)
Definition process_element (config : Config) (element : Element) : Element * bool :=
  match get_parameter_value element (source_param config) with
  | None => (element, false)
  | Some source_value =>
      let target_value :=
        if decide (find_text config = "") then source_value
        else str_replace source_value (find_text config) (replace_text config) in
      set_parameter_value element (target_param config) target_value
  end.

(** What a run shows and does. *)
Inductive Outcome :=
| NoSelection                   (* alert, nothing else *)
| Cancelled                     (* the dialog was dismissed *)
| Processed (elements : list Element) (success_count error_count : nat).

Definition main (elements : list Element) (config : option Config) : Outcome :=
  match elements with
  | [] => NoSelection
  | _ =>
      match config with
      | None => Cancelled
      | Some config =>
          let results := process_element config <$> elements in
          Processed (fst <$> results)
                    (length (filter (fun r => r.2 = true) results))
                    (length (filter (fun r => r.2 = false) results))
      end
  end.

(** A sample selection: one view with a name and an empty sheet title. *)
Definition sample_element : Element :=
  mkElement 1
    {[ "View Name" := mkParameter StString (Some "Level 1 - Plan") None 0 0 true;
       "Title on Sheet" := mkParameter StString None None 0 0 false ]}.

Definition sample_config : Config :=
  mkConfig "View Name" "Title on Sheet" "Level" "L".

End ChangeParameter.

(** *** What both view scripts share *)

Section Scripts.
Context `{HostAPI}.
Local Open Scope Q_scope.

Definition newline : string := String (ascii_of_nat 10) "".

(** One entry of [results]. *)
Record AreaResult := mkResult {
  r_area : Area;
  r_sheet : option ViewSheet;
  r_marketing_view : option View;
  r_keyplan_view : option View;
  r_warnings : list string;
  r_failed : bool
}.

Fixpoint for_each {A B} (body : A -> Script B) (l : list A) : Script (list B) :=
  match l with
  | [] => mret []
  | x :: l' => r ← body x; rs ← for_each body l'; mret (r :: rs)
  end.

(** The generators with the fuel that always suffices: one more than the
    number of views (sheets) in the document. *)
Definition unique_view_name_now (base_name : string) : Script string :=
  d ← get_doc;
  r ← unique_view_name (S (length (doc_views d))) base_name;
  mret (default base_name r).

Definition unique_sheet_number_now (base_number : string) : Script string :=
  d ← get_doc;
  r ← unique_sheet_number (S (length (doc_sheets d))) base_number;
  mret (default base_number r).

Definition update_views (f : list View -> list View) : Script unit :=
  d ← get_doc;
  set_doc (mkDocument (ActiveView d) (f (doc_views d)) (doc_sheets d)
                      (doc_titleblock_types d) (doc_fill_types d)).

Definition update_sheets (f : list ViewSheet -> list ViewSheet) : Script unit :=
  d ← get_doc;
  set_doc (mkDocument (ActiveView d) (doc_views d) (f (doc_sheets d))
                      (doc_titleblock_types d) (doc_fill_types d)).

Definition with_view_name (v : View) (name : string) : View :=
  mkView (view_Id v) name (IsTemplate v) (IsViewPlan v) (Origin v)
         (view_elements v) (view_doors v) (VIEW_PLAN_ROTATION v) (View_Rotation v).

(** [base_view.Duplicate(...)] and [doc.GetElement(id)] *)
Definition duplicate_view (base_view : View) : Script View :=
  d ← get_doc;
  let v := Duplicate d base_view in
  emit (DuplicateView (view_Id base_view) (view_Id v));;
  update_views (fun views => views ++ [v]);;
  mret v.

(** [view.Name = name] *)
Definition assign_view_name (v : View) (name : string) : Script View :=
  emit (SetName (view_Id v) name);;
  update_views (fmap (fun x => if decide (view_Id x = view_Id v)
                               then with_view_name x name else x));;
  mret (with_view_name v name).

(** [elem.Name or elem.Id.IntegerValue], as it is printed. *)
Definition _safe_elem_label (area : Area) : string :=
  str_or (area_Name area) (pretty (area_Id area)).

(** [sorted(set(warnings))] *)
Definition sorted_set (warnings : list string) : list string :=
  sort_by String.leb (fun s => s) (remove_dups warnings).

Definition all_warnings (results : list AreaResult) : list string :=
  concat (r_warnings <$> results).

Definition with_warnings (message : string) (results : list AreaResult) : string :=
  match all_warnings results with
  | [] => message
  | warnings =>
      message +:+ newline +:+ newline +:+ "Warnings:" +:+ newline
      +:+ String.concat newline (sorted_set warnings)
  end.

Definition failed_lines (results : list AreaResult) : list string :=
  match filter (fun r => r_failed r = true) results with
  | [] => []
  | failed =>
      [""; "Failed " +:+ pretty (length failed) +:+ " area(s):"]
      ++ ((fun r => "- " +:+ _safe_elem_label (r_area r)) <$> failed)
  end.

(** The [try ... except] around [FilledRegion.Create]: the warnings it
    leaves.  [fallback_loop] is the rectangle already built, if any. *)
Definition create_filled_region (fill_type : FilledRegionType) (view : View)
    (area : Area) (loop : list Curve) (fallback_loop : option (list Curve))
    (used_box could_not : string) : Script (list string) :=
  if FilledRegion_accepts loop
  then emit (CreateFilledRegion (ft_Id fill_type) (view_Id view) loop);; mret []
  else
    let fallback_loop :=
      match fallback_loop with
      | None => _rect_loop_from_bbox (get_BoundingBox area)
      | Some _ => fallback_loop
      end in
    match fallback_loop with
    | Some rect =>
        if FilledRegion_accepts rect
        then emit (CreateFilledRegion (ft_Id fill_type) (view_Id view) rect);;
             mret [used_box]
        else mret [could_not]
    | None => mret [could_not]
    end.

End Scripts.

(** *** KeyPlan-script.py, [main] (293-475) *)

Module KeyPlan.
Section KeyPlan.
Context `{HostAPI}.

(** What the user does with one showing of the form: ask to pick areas
    (the pick may be cancelled), close the form, or confirm. *)
Inductive Step :=
| Retry (picked : option (list Area))
| Close
| Ok (selected_keyplan_template : View) (selected_fill_type : FilledRegionType).

(** The body of [for area in areas]. *)
Definition keyplan_area (base_view : View) (keyplan_template : View)
    (keyplan_fill_type : FilledRegionType) (area : Area) : Script AreaResult :=
  let loop := get_outer_boundary_loop area in
  let fallback_loop :=
    match loop with
    | None => _rect_loop_from_bbox (get_BoundingBox area)
    | Some _ => None
    end in
  let loop := match loop with None => fallback_loop | Some _ => loop end in
  match loop with
  | None =>
      mret (mkResult area None None None
                     ["Could not create a filled region boundary."] true)
  | Some loop =>
      let base_label :=
        str_or (area_Number area) (str_or (area_Name area) (pretty (area_Id area))) in
      keyplan_view ← duplicate_view base_view;
      name ← unique_view_name_now ("Keyplan - " +:+ base_label);
      keyplan_view ← assign_view_name keyplan_view name;
      emit (SetViewTemplate (view_Id keyplan_view) (view_Id keyplan_template));;
      emit (SetCropBoxActive (view_Id keyplan_view));;
      emit (SetCropBoxVisible (view_Id keyplan_view));;
      create_errors ←
        create_filled_region keyplan_fill_type keyplan_view area loop fallback_loop
          "Filled region loop was discontinuous; used area bounding box."
          "Filled region could not be created.";
      mret (mkResult area None None (Some keyplan_view) create_errors false)
  end.

Definition summary (results : list AreaResult) : string :=
  let created := filter (fun r => is_Some (r_keyplan_view r)) results in
  let lines :=
    ["Created " +:+ pretty (length created) +:+ " keyplan view(s):"]
    ++ ((fun r => "- " +:+ from_option view_Name "" (r_keyplan_view r)
                  +:+ " (" +:+ _safe_elem_label (r_area r) +:+ ")") <$> created)
    ++ failed_lines results in
  with_warnings (String.concat newline lines) results.

(** The [while True] loop around the form.  [None]: the form was closed,
    or the recorded steps ran out. *)
Fixpoint dialog (steps : list Step) (areas : list Area)
    : Script (option (list Area * View * FilledRegionType)) :=
  match steps with
  | [] => mret None
  | step :: steps' =>
      emit ShowDialog;;
      match step with
      | Retry picked =>
          emit PickElements;;
          match picked with
          | None => dialog steps' areas
          | Some picked => dialog steps' picked
          end
      | Close => mret None
      | Ok keyplan_template keyplan_fill_type =>
          emit SaveConfig;;
          mret (Some (areas, keyplan_template, keyplan_fill_type))
      end
  end.

Definition transaction (base_view : View) (areas : list Area)
    (keyplan_template : View) (keyplan_fill_type : FilledRegionType) : Script unit :=
  emit (TransactionStart "Create Keyplan Views");;
  results ← for_each (keyplan_area base_view keyplan_template keyplan_fill_type) areas;
  emit TransactionCommit;;
  match last (omap r_keyplan_view results) with
  | Some last_keyplan => emit (RequestViewChange (view_Id last_keyplan))
  | None => mret tt
  end;;
  emit (Alert (summary results) "Keyplans Created").

(** [config_areas]: the area remembered from the last run, if it is
    still an area.  [steps]: what the user does. *)
Definition main (config_areas : list Area) (steps : list Step) : Script unit :=
  d ← get_doc;
  let base_view := ActiveView d in
  if negb (IsViewPlan base_view)
  then emit (Alert "Active view must be a plan view." "Make Keyplans")
  else
    views ← collect_views;
    let templates := filter (fun v => IsTemplate v = true) views in
    let templates_sorted := sort_by String.leb view_Name templates in
    emit (Collect ClsFilledRegionType);;
    let fill_types_sorted := sort_by String.leb ft_Name (doc_fill_types d) in
    match templates_sorted, fill_types_sorted with
    | [], _ =>
        emit (Alert "No view templates found for this view type." "Make Keyplans")
    | _, [] => emit (Alert "No filled region types found." "Make Keyplans")
    | _, _ =>
        emit GetConfig;;
        confirmed ← dialog steps config_areas;
        match confirmed with
        | None => mret tt
        | Some (areas, keyplan_template, keyplan_fill_type) =>
            transaction base_view areas keyplan_template keyplan_fill_type
        end
    end.

End KeyPlan.
End KeyPlan.

(** *** MultipleUnits-script.py, [main] (854-1253) *)

Module MultipleUnits.
Section MultipleUnits.
Context `{HostAPI}.
Local Open Scope Q_scope.

(** What the confirmed form holds. *)
Record Selection := mkSelection {
  selected_sheet_number_param : option string;
  selected_sheet_name_param : option string;
  selected_template : View;
  selected_keyplan_template : option View;
  selected_fill_type : option FilledRegionType;
  selected_titleblock : TitleBlockType;
  selected_overwrite : bool;
  selected_create_keyplan : bool
}.

Inductive Step :=
| Retry (request_action : string) (picked : option (list Area))
| Close
| Ok (selection : Selection).

Definition get_param_value (elem : Area) (name : option string) : string :=
  match name with
  | None => ""
  | Some name =>
      if decide (name = "") then ""
      else
        match area_params elem !! name with
        | None => ""
        | Some param =>
            match param_StorageType param with
            | StString => default "" (AsString param)
            | StDouble =>
                str_or (default "" (AsValueString param)) (str_float (AsDouble param))
            | StInteger => pretty (AsInteger param)
            | StElementId => default "" (AsValueString param)
            | StNone => ""
            end
        end
  end.

(** The [try ... except] around [SetCropShape]: the warnings it leaves. *)
Definition set_crop_shape (view : View) (area : Area) (loop : list Curve)
    : Script (list string) :=
  if SetCropShape_accepts loop
  then emit (SetCropShape (view_Id view) loop);; mret []
  else
    match _rect_loop_from_bbox (get_BoundingBox area) with
    | Some fallback_loop =>
        if SetCropShape_accepts fallback_loop
        then emit (SetCropShape (view_Id view) fallback_loop);;
             mret ["Area crop loop was discontinuous; used area bounding box instead."]
        else mret ["Area crop loop was discontinuous; crop not set."]
    | None => mret ["Area crop loop was discontinuous; crop not set."]
    end.

(** [_clamp_viewport_center] as a host call. *)
Definition clamp (viewport : Viewport) (target bounds_min bounds_max : XYZ)
    : Script Viewport :=
  let viewport' := _clamp_viewport_center viewport target bounds_min bounds_max in
  emit (SetBoxCenter (vp_Id viewport') (vp_center viewport'));;
  mret viewport'.

Definition create_viewport (sheet : ViewSheet) (view : View) (at_point : XYZ)
    : Script (option Viewport) :=
  d ← get_doc;
  match Viewport_Create d sheet view at_point with
  | Some vp =>
      emit (CreateViewport (sheet_Id sheet) (view_Id view) (vp_Id vp) at_point);;
      emit Regenerate;;
      mret (Some vp)
  | None => mret None
  end.

(** Lines 1128-1185: the viewports placed on the sheet, as they end up,
    each with the flag whether [_clamp_viewport_center] ran on it. *)
Definition place_viewports (sheet : ViewSheet) (marketing_view : View)
    (keyplan_view : option View) (create_keyplan : bool)
    : Script (list (Viewport * bool)) :=
  d ← get_doc;
  if CanAddViewToSheet d sheet marketing_view then
    let '(bounds_min, bounds_max) := _get_titleblock_bounds sheet in
    let center := mkXYZ ((X bounds_min + X bounds_max) / 2)
                        ((Y bounds_min + Y bounds_max) / 2) 0 in
    let offset := if create_keyplan then (X bounds_max - X bounds_min) * 0.25 else 0 in
    let marketing_pt := mkXYZ (X center - offset) (Y center) 0 in
    marketing_vp ← create_viewport sheet marketing_view marketing_pt;
    match marketing_vp with
    | None => mret []
    | Some marketing_vp =>
        match (if create_keyplan then keyplan_view else None) with
        | Some keyplan_view =>
            let keyplan_pt := mkXYZ (X center + offset) (Y center) 0 in
            d ← get_doc;
            if CanAddViewToSheet d sheet keyplan_view then
              keyplan_vp ← create_viewport sheet keyplan_view keyplan_pt;
              match keyplan_vp with
              | Some keyplan_vp =>
                  let margin := (X bounds_max - X bounds_min) * 0.02 in
                  match _viewport_half_size marketing_vp,
                        _viewport_half_size keyplan_vp with
                  | Some marketing_half, Some keyplan_half =>
                      let marketing_target :=
                        mkXYZ (X bounds_min + marketing_half.1 + margin) (Y center) 0 in
                      let keyplan_target :=
                        mkXYZ (X bounds_max - keyplan_half.1 - margin) (Y center) 0 in
                      m ← clamp marketing_vp marketing_target bounds_min bounds_max;
                      k ← clamp keyplan_vp keyplan_target bounds_min bounds_max;
                      mret [(m, true); (k, true)]
                  | _, _ =>
                      m ← clamp marketing_vp marketing_pt bounds_min bounds_max;
                      k ← clamp keyplan_vp keyplan_pt bounds_min bounds_max;
                      mret [(m, true); (k, true)]
                  end
              | None => mret [(marketing_vp, false)]
              end
            else
              m ← clamp marketing_vp marketing_pt bounds_min bounds_max;
              mret [(m, true)]
        | None =>
            m ← clamp marketing_vp marketing_pt bounds_min bounds_max;
            mret [(m, true)]
        end
    end
  else mret [].

Definition with_sheet_number (s : ViewSheet) (number : string) : ViewSheet :=
  mkSheet (sheet_Id s) number (sheet_Name s) (sheet_titleblocks s) (sheet_Outline s).

Definition with_sheet_name (s : ViewSheet) (name : string) : ViewSheet :=
  mkSheet (sheet_Id s) (SheetNumber s) name (sheet_titleblocks s) (sheet_Outline s).

Definition replace_sheet (s : ViewSheet) : Script unit :=
  update_sheets (fmap (fun x => if decide (sheet_Id x = sheet_Id s) then s else x)).

(** Lines 1116-1126: the new sheet, and the warnings of the two guarded
    assignments. *)
Definition create_sheet (titleblock_type : TitleBlockType)
    (sheet_number sheet_name : string) : Script (ViewSheet * list string) :=
  d ← get_doc;
  let sheet := ViewSheet_Create d titleblock_type in
  emit (CreateSheet (tb_Id titleblock_type) (sheet_Id sheet));;
  update_sheets (fun sheets => sheets ++ [sheet]);;
  number_step ←
    (if decide (sheet_number = "") then mret (sheet, [])
     else
       d ← get_doc;
       if SheetNumber_accepts d sheet_number
       then emit (SetSheetNumber (sheet_Id sheet) sheet_number);;
            replace_sheet (with_sheet_number sheet sheet_number);;
            mret (with_sheet_number sheet sheet_number, [])
       else mret (sheet, ["Sheet number '" +:+ sheet_number +:+ "' could not be set."]));
  let '(sheet, number_errors) := number_step in
  name_step ←
    (if decide (sheet_name = "") then mret (sheet, [])
     else
       d ← get_doc;
       if SheetName_accepts d sheet_name
       then emit (SetSheetName (sheet_Id sheet) sheet_name);;
            replace_sheet (with_sheet_name sheet sheet_name);;
            mret (with_sheet_name sheet sheet_name, [])
       else mret (sheet, ["Sheet name '" +:+ sheet_name +:+ "' could not be set."]));
  let '(sheet, name_errors) := name_step in
  mret (sheet, number_errors ++ name_errors).

(** Lines 1087-1114: the keyplan view of the area, when one is asked for. *)
Definition create_keyplan_view (base_view : View) (selection : Selection)
    (area : Area) (base_label : string) (loop : list Curve)
    : Script (option View * list string) :=
  match selected_create_keyplan selection,
        selected_keyplan_template selection,
        selected_fill_type selection with
  | true, Some keyplan_template, Some keyplan_fill_type =>
      keyplan_view ← duplicate_view base_view;
      name ← unique_view_name_now ("Keyplan - " +:+ base_label);
      keyplan_view ← assign_view_name keyplan_view name;
      emit (SetViewTemplate (view_Id keyplan_view) (view_Id keyplan_template));;
      emit (SetCropBoxActive (view_Id keyplan_view));;
      emit (SetCropBoxVisible (view_Id keyplan_view));;
      fill_errors ←
        create_filled_region keyplan_fill_type keyplan_view area loop None
          "Keyplan fill loop was discontinuous; used area bounding box."
          "Keyplan fill loop was discontinuous; fill not created.";
      mret (Some keyplan_view, fill_errors)
  | _, _, _ => mret (None, [])
  end.

(** The body of [for area in areas] (1018-1199). *)
Definition marketing_area (base_view : View) (selection : Selection)
    (area : Area) : Script AreaResult :=
  let overwrite_existing := selected_overwrite selection in
  let sheet_number :=
    str_or (get_param_value area (selected_sheet_number_param selection))
           (area_Number area) in
  let sheet_name :=
    str_or (get_param_value area (selected_sheet_name_param selection))
           (str_or (area_Name area) "Marketing Sheet") in
  let base_label :=
    str_or sheet_name (str_or (area_Name area) (str_or (area_Number area) "Marketing")) in
  let view_name_base := "Marketing - " +:+ base_label in
  view_name ← unique_view_name_now view_name_base;
  existing_sheet ←
    (if decide (sheet_number = "") then mret None
     else sheets ← collect_sheets;
          mret (List.find (fun s => bool_decide (SheetNumber s = sheet_number)) sheets));
  names ←
    (match existing_sheet with
     | Some _ =>
         if overwrite_existing then mret (sheet_number, view_name)
         else
           number ← unique_sheet_number_now sheet_number;
           name ← unique_view_name_now (view_name_base +:+ " - copy");
           mret (number, name)
     | None => mret (sheet_number, view_name)
     end);
  let '(sheet_number, view_name) := names in
  match get_outer_boundary_loop area with
  | None =>
      mret (mkResult area None None None
              ["Could not get a closed boundary loop from the selected area."] true)
  | Some loop =>
      let door := find_entry_door_in_area (Some area) base_view in
      match existing_sheet with
      | Some existing =>
          if overwrite_existing
          then emit (DeleteElement (sheet_Id existing));;
               update_sheets (filter (fun s => sheet_Id s ≠ sheet_Id existing))
          else mret tt
      | None => mret tt
      end;;
      marketing_view ← duplicate_view base_view;
      marketing_view ← assign_view_name marketing_view view_name;
      emit (SetViewTemplate (view_Id marketing_view)
                            (view_Id (selected_template selection)));;
      emit (ClearScopeBox (view_Id marketing_view));;
      emit (SetCropBoxActive (view_Id marketing_view));;
      emit (SetCropBoxVisible (view_Id marketing_view));;
      rotation ←
        (match door with
         | Some door => rotate_view_to_door marketing_view door
         | None => mret (false, "No entry door found for this area.")
         end : Script (bool * string));
      let '(rotated, rotate_msg) := rotation in
      crop_errors ← set_crop_shape marketing_view area loop;
      keyplan ← create_keyplan_view base_view selection area base_label loop;
      let '(keyplan_view, fill_errors) := keyplan in
      created ← create_sheet (selected_titleblock selection) sheet_number sheet_name;
      let '(sheet, sheet_errors) := created in
      place_viewports sheet marketing_view keyplan_view
                      (selected_create_keyplan selection);;
      let create_errors :=
        crop_errors ++ fill_errors ++ sheet_errors
        ++ (if rotated : bool then [] else ["Rotation failed: " +:+ rotate_msg]) in
      mret (mkResult area (Some sheet) (Some marketing_view) keyplan_view
                     create_errors false)
  end.

(** [_report_sheet_number] *)
Definition _report_sheet_number (sheet : ViewSheet) : string :=
  str_or (SheetNumber sheet) ("MARKETING&" +:+ random_suffix).

Definition summary (results : list AreaResult) : string :=
  let created := filter (fun r => is_Some (r_sheet r)) results in
  let lines :=
    ["Created " +:+ pretty (length created) +:+ " sheet(s):"]
    ++ ((fun r => "- " +:+ from_option _report_sheet_number "" (r_sheet r)
                  +:+ " (" +:+ _safe_elem_label (r_area r) +:+ ")") <$> created)
    ++ failed_lines results in
  with_warnings (String.concat newline lines) results.

(** The [while True] loop around the form. *)
Fixpoint dialog (steps : list Step) (areas : list Area)
    : Script (option (list Area * Selection)) :=
  match steps with
  | [] => mret None
  | step :: steps' =>
      emit ShowDialog;;
      match step with
      | Retry request_action picked =>
          if decide (request_action = "area") then
            emit PickElements;;
            match picked with
            | None => dialog steps' areas
            | Some picked => dialog steps' picked
            end
          else dialog steps' areas
      | Close => mret None
      | Ok selection => emit SaveConfig;; mret (Some (areas, selection))
      end
  end.

Definition request_view_change (view : option View) : Script unit :=
  match view with
  | Some v => emit (RequestViewChange (view_Id v))
  | None => mret tt
  end.

Definition transaction (base_view : View) (areas : list Area)
    (selection : Selection) : Script unit :=
  emit (TransactionStart "Make Marketing View");;
  results ← for_each (marketing_area base_view selection) areas;
  emit TransactionCommit;;
  match last (filter (fun r => is_Some (r_sheet r)) results) with
  | Some r =>
      request_view_change (r_marketing_view r);;
      request_view_change (r_keyplan_view r);;
      match r_sheet r with
      | Some s => emit (RequestViewChange (sheet_Id s))
      | None => mret tt
      end
  | None => mret tt
  end;;
  emit (Alert (summary results) "Marketing Sheets Created").

Definition main (config_areas : list Area) (steps : list Step) : Script unit :=
  d ← get_doc;
  let base_view := ActiveView d in
  if negb (IsViewPlan base_view)
  then emit (Alert "Active view must be a plan view." "Make Marketing View")
  else
    views ← collect_views;
    let templates := filter (fun v => IsTemplate v = true) views in
    let templates_sorted := sort_by String.leb view_Name templates in
    emit (Collect CatTitleBlockTypes);;
    let titleblocks_sorted :=
      sort_by String.leb (fun t => tb_FamilyName t +:+ ": " +:+ tb_Name t)
              (doc_titleblock_types d) in
    emit (Collect ClsFilledRegionType);;
    let fill_types_sorted := sort_by String.leb ft_Name (doc_fill_types d) in
    match templates_sorted, fill_types_sorted, titleblocks_sorted with
    | [], _, _ =>
        emit (Alert "No view templates found for this view type." "Make Marketing View")
    | _, [], _ => emit (Alert "No filled region types found." "Make Marketing View")
    | _, _, [] => emit (Alert "No titleblock types found." "Make Marketing View")
    | _, _, _ =>
        emit GetConfig;;
        confirmed ← dialog steps config_areas;
        match confirmed with
        | None => mret tt
        | Some (areas, selection) => transaction base_view areas selection
        end
    end.

End MultipleUnits.
End MultipleUnits.

(** *** Notions used to state the script properties *)

(** A computation that leaves the document as it is and adds nothing but
    collector queries to the log. *)
Definition reads_only {A} (c : Script A) : Prop :=
  forall w, w_doc (c w).2 = w_doc w /\
    exists reads, w_log (c w).2 = w_log w ++ reads /\
                  Forall (fun e => is_collect e = true) reads.

(** A computation that only reads and then shows one alert. *)
Definition aborted (w w' : World) : Prop :=
  w_doc w' = w_doc w /\
  exists reads msg title,
    w_log w' = w_log w ++ reads ++ [Alert msg title] /\
    Forall (fun e => is_collect e = true) reads.

Section BestLoop.
Context `{HostAPI}.


End BestLoop.


(** *** Notions used to state further geometry properties *)




(** The one event by which [rotate_view_to_door] rotates a view: the crop
    element found in the view is turned about the view origin, or, when
    there is no crop element, the writable rotation parameter is set. *)
Definition is_rotation (view : View) (e : Event) : Prop :=
  (exists elem angle, e = RotateElement elem (Origin view) angle /\
     exists crop_elem, find_crop_element view = Some crop_elem /\ elem = ve_Id crop_elem) \/
  (exists value, e = SetRotationParameter (view_Id view) value /\
     find_crop_element view = None /\
     exists p, py_or (VIEW_PLAN_ROTATION view) (View_Rotation view) = Some p /\
               IsReadOnly p = false).

(** *** Notions used to state further script properties *)


(** A computation whose result satisfies [Q], that relates the document
    before and after by [R], and that adds to the log only events on which
    [p] holds. *)
Definition script_post {A} (R : relation Document) (p : Event -> bool)
    (Q : A -> Prop) (c : Script A) : Prop :=
  forall w, Q (c w).1 /\ R (w_doc w) (w_doc (c w).2) /\
    exists events, w_log (c w).2 = w_log w ++ events /\
                   Forall (fun e => p e = true) events.

(** The same for runs that start in the document [d0]. *)
Definition script_post_at {A} (d0 : Document) (R : relation Document)
    (p : Event -> bool) (Q : A -> Prop) (c : Script A) : Prop :=
  forall w, w_doc w = d0 -> Q (c w).1 /\ R d0 (w_doc (c w).2) /\
    exists events, w_log (c w).2 = w_log w ++ events /\
                   Forall (fun e => p e = true) events.

Definition any_doc : relation Document := fun _ _ => True.

Definition anything {A} : A -> Prop := fun _ => True.


Definition is_bracket (e : Event) : bool :=
  match e with
  | TransactionStart _ | TransactionCommit => true
  | _ => false
  end.

Definition inside (e : Event) : bool := negb (is_bracket e).

Definition is_delete (e : Event) : bool :=
  match e with
  | DeleteElement _ => true
  | _ => false
  end.

(** The first sheet that carries a number, as the loop over the sheets
    finds it. *)
Definition first_sheet_numbered (number : string) (d : Document) : option ViewSheet :=
  List.find (fun s => bool_decide (SheetNumber s = number)) (doc_sheets d).

(** The only deletion the marketing script may make for an area: with the
    overwrite option, of the first sheet that carries the area's sheet
    number. *)
Definition may_delete (overwrite : bool) (number : string) (d : Document)
    (e : Event) : bool :=
  match e with
  | DeleteElement id =>
      overwrite && bool_decide (number <> "")
      && bool_decide (sheet_Id <$> first_sheet_numbered number d = Some id)
  | TransactionStart _ | TransactionCommit => false
  | _ => true
  end.





(** How a result reports its area: as failed, with nothing created, or as
    done, with what [created] selects. *)
Definition reports {B} (created : AreaResult -> option B) (area : Area)
    (r : AreaResult) : Prop :=
  r_area r = area /\
  (r_failed r = true /\ created r = None /\ r_warnings r <> [] \/
   r_failed r = false /\ is_Some (created r)).


(** Events of a computation that deletes nothing. *)
Definition never_deletes (e : Event) : bool := inside e && negb (is_delete e).

(** *** Notions used to state further door properties *)


(** The points of a door's location, before any offset: lines 653-664 of
    [_door_points_for_check]. *)
Definition door_base_points (door : Door) : list XYZ :=
  match door_Location door with
  | LocationPoint p => [p]
  | LocationCurve (Some (end0, end1, mid)) => [end0; end1; mid]
  | _ => []
  end.


(** *** The moment sums of the centroid *)





(** *** Notions used to state the naming of the views *)


(** A name that the unique-name generator makes from a base: the base, or
    the base with a counter from 1 on. *)
Definition named_after (base name : string) : Prop :=
  name = base \/ exists i, 1 <= i /\ name = view_candidate base i.

Definition any_event (e : Event) : bool := true.



(** *** The forms and what they remember (KeyPlan-script.py 155-290 and
    327-345; MultipleUnits-script.py 263-388 and 918-950) *)

Module Forms.

Section Choices.
Context {A : Type} (Id : A -> Z).

(** The loop that turns a remembered element id into a list index: the
    index of the first item that carries the id, and 0 when nothing is
    remembered (no id, or the falsy id 0) or no item carries it. *)
Definition remembered_index (items : list A) (last_id : option Z) : Z :=
  match last_id with
  | None => 0%Z
  | Some last_id =>
      if decide (last_id = 0%Z) then 0%Z
      else
        match list_find (fun item => Id item = last_id) items with
        | Some (idx, _) => Z.of_nat idx
        | None => 0%Z
        end
  end.

(** [SelectedIndex] after a [_load_..._choices]: the remembered index when
    it is in range, else the first item; -1, nothing selected, for an
    empty list. *)
Definition load_choices (items : list A) (index : Z) : Z :=
  match items with
  | [] => (-1)%Z
  | _ =>
      if (0 <=? index)%Z && (index <? Z.of_nat (length items))%Z then index else 0%Z
  end.

(** [items[index]] for an index that is not negative; [None] stands for
    the [IndexError]. *)
Definition item_at (items : list A) (index : Z) : option A :=
  items !! Z.to_nat index.

End Choices.

(** What a press on [Create] does: an alert that leaves the form open,
    the confirmed selection, or an [IndexError]. *)
Inductive Pressed (S : Type) :=
| Alerted (msg : string)
| Confirmed (selection : S)
| IndexError.
Arguments Alerted {S} msg.
Arguments Confirmed {S} selection.
Arguments IndexError {S}.

(** The keyplan form when [Create] is pressed. *)
Record KeyplanForm := mkKeyplanForm {
  kf_areas : list Area;
  kf_templates : list View;
  kf_fill_types : list FilledRegionType;
  kf_template_index : Z;
  kf_fill_index : Z
}.

(** [KeyplanForm._on_create] *)
Definition keyplan_on_create (form : KeyplanForm)
    : Pressed (View * FilledRegionType) :=
  match kf_areas form with
  | [] => Alerted "Please pick at least one area."
  | _ =>
      if (kf_template_index form <? 0)%Z
      then Alerted "Please select a keyplan view template."
      else if (kf_fill_index form <? 0)%Z
      then Alerted "Please select a keyplan filled region type."
      else
        match item_at (kf_templates form) (kf_template_index form) with
        | None => IndexError
        | Some selected_keyplan_template =>
            match item_at (kf_fill_types form) (kf_fill_index form) with
            | None => IndexError
            | Some selected_fill_type =>
                Confirmed (selected_keyplan_template, selected_fill_type)
            end
        end
  end.

(** The keyplan form as its constructor fills it from the state. *)
Definition keyplan_form (templates : list View) (fill_types : list FilledRegionType)
    (areas : list Area) (keyplan_template_index fill_type_index : Z) : KeyplanForm :=
  mkKeyplanForm areas templates fill_types
                (load_choices templates keyplan_template_index)
                (load_choices fill_types fill_type_index).

(** The marketing form when [Create] is pressed. *)
Record MarketingForm := mkMarketingForm {
  mf_selected_area : option Area;
  mf_areas : list Area;
  mf_param_names : list string;
  mf_sheet_number_index : Z;
  mf_sheet_name_index : Z;
  mf_templates : list View;
  mf_template_index : Z;
  mf_titleblocks : list TitleBlockType;
  mf_titleblock_index : Z;
  mf_keyplan_templates : list View;
  mf_keyplan_template_index : Z;
  mf_fill_types : list FilledRegionType;
  mf_fill_index : Z;
  mf_keyplan_checked : bool;
  mf_overwrite_checked : bool
}.

(** [MarketingViewForm._on_create] *)
Definition marketing_on_create (form : MarketingForm)
    : Pressed MultipleUnits.Selection :=
  if bool_decide (mf_selected_area form = None) && bool_decide (mf_areas form = [])
  then Alerted "Please pick at least one area."
  else if (mf_sheet_number_index form <? 0)%Z || (mf_sheet_name_index form <? 0)%Z
  then Alerted "Please select sheet parameter mappings."
  else if (mf_template_index form <? 0)%Z
  then Alerted "Please select a marketing view template."
  else if (mf_titleblock_index form <? 0)%Z
  then Alerted "Please select a titleblock."
  else if mf_keyplan_checked form && (mf_keyplan_template_index form <? 0)%Z
  then Alerted "Please select a keyplan view template."
  else if mf_keyplan_checked form && (mf_fill_index form <? 0)%Z
  then Alerted "Please select a keyplan filled region type."
  else
    let selected_sheet_number_param :=
      item_at (mf_param_names form) (mf_sheet_number_index form) in
    let selected_sheet_name_param :=
      item_at (mf_param_names form) (mf_sheet_name_index form) in
    match item_at (mf_templates form) (mf_template_index form) with
    | None => IndexError
    | Some selected_template =>
        let keyplan :=
          if mf_keyplan_checked form then
            match item_at (mf_keyplan_templates form) (mf_keyplan_template_index form) with
            | None => None
            | Some selected_keyplan_template =>
                match item_at (mf_fill_types form) (mf_fill_index form) with
                | None => None
                | Some selected_fill_type =>
                    Some (Some selected_keyplan_template, Some selected_fill_type)
                end
            end
          else Some (None, None) in
        match keyplan with
        | None => IndexError
        | Some (selected_keyplan_template, selected_fill_type) =>
            match item_at (mf_titleblocks form) (mf_titleblock_index form) with
            | None => IndexError
            | Some selected_titleblock =>
                Confirmed
                  (MultipleUnits.mkSelection
                     selected_sheet_number_param selected_sheet_name_param
                     selected_template selected_keyplan_template selected_fill_type
                     selected_titleblock (mf_overwrite_checked form)
                     (mf_keyplan_checked form))
            end
        end
    end.

End Forms.



(** *** Picking elements (MultipleUnits-script.py 67-90, KeyPlan-script.py
    32-55) *)

Module Picking.

(** What [doc.GetElement(ref)] gives for a picked reference: the element
    with its category id, if it has a category. *)
Record PickedElement := mkPicked {
  pe_Id : Z;
  pe_Category : option Z
}.

(** What the host and the user do during the call: whether switching the
    temporary isolation on or off raises, and what the user picks, [None]
    when the user cancels ([OperationCanceledException]); a reference may
    resolve to no element. *)
Record PickHost := mkPickHost {
  isolate_raises : bool;
  disable_raises : bool;
  picked_refs : option (list (option PickedElement))
}.

Inductive PickCall :=
| IsolateCategoriesTemporary (category : Z) (raised : bool)
| PickObjects
| DisableTemporaryViewMode (raised : bool).

(** The list that is returned, or the exception that leaves the function. *)
Inductive PickResult :=
| Returned (elems : list PickedElement)
| OperationCanceled.

Section PickElements.
Variable OST_Areas : Z.

(** [elem and elem.Category and elem.Category.Id.IntegerValue == bic_id] *)
Definition expected (bic_id : Z) (elem : option PickedElement) : option PickedElement :=
  match elem with
  | Some e => if decide (pe_Category e = Some bic_id) then Some e else None
  | None => None
  end.

Definition pick_elements (host : PickHost) (bic_id : Z)
    : PickResult * list PickCall :=
  let '(isolate_active, calls) :=
    if decide (bic_id = OST_Areas)
    then (negb (isolate_raises host),
          [IsolateCategoriesTemporary bic_id (isolate_raises host)])
    else (false, []) in
  let finally :=
    if isolate_active then [DisableTemporaryViewMode (disable_raises host)] else [] in
  match picked_refs host with
  | Some refs => (Returned (omap (expected bic_id) refs), calls ++ [PickObjects] ++ finally)
  | None => (OperationCanceled, calls ++ [PickObjects] ++ finally)
  end.

End PickElements.

End Picking.

(** *** Sample loops *)

Definition pt (x y : Q) : XYZ := mkXYZ x y 0.

(** A unit square as one closed polyline, the same walk started at the
    second vertex, and the walk backwards. *)
Definition square_loop : list Curve :=
  [ mkCurve [pt 0 0; pt 1 0; pt 1 1; pt 0 1; pt 0 0] ].



(** A closed sliver with two vertices closer together than the tolerance:
    2^-20 and 2^-19 are exact in binary64 as well. *)
Definition sliver : list XYZ :=
  [ pt 0 0; pt (1 # 1048576) 0; pt (1 # 524288) 0; pt 0 1; pt 0 0 ].



(** *** A sample host and sample objects *)

(** Stand-ins for the host libraries: vectors are taken as normalised,
    the angle is read off the first argument of [atan2], numbers print as
    a fixed text, and the host accepts every curve and loop. *)
#[local] Instance sample_host : HostAPI := {|
  Normalize := fun v => v;
  IsZeroLength := fun v => GetLength_lt v 1e-9;
  atan2 := fun y _ => y;
  format_degrees := fun _ => "0.00";
  str_float := fun _ => "0.0";
  Append_accepts := fun _ _ => true;
  SetCropShape_accepts := fun _ => true;
  FilledRegion_accepts := fun _ => true;
  random_suffix := "1000";
  SheetNumber_accepts := fun _ _ => true;
  SheetName_accepts := fun _ _ => true;
  Duplicate := fun d v =>
    mkView (view_Id v + 100 + Z.of_nat (length (doc_views d))) "Copy" false
           (IsViewPlan v) (Origin v) [] (view_doors v) None None;
  ViewSheet_Create := fun d tb =>
    mkSheet (tb_Id tb + 200 + Z.of_nat (length (doc_sheets d))) "S-NEW" "Unnamed"
            (tb_boxes tb) (tb_outline tb);
  CanAddViewToSheet := fun _ _ _ => true;
  Viewport_Create := fun _ s v c =>
    Some (mkViewport (view_Id v + 300) c 2 1 (OutlineNames false true false))
|}.

Definition sample_view : View :=
  mkView 10 "Level 1" false true (pt 0 0) [] (Some []) None None.

Definition sample_door (facing : XYZ) : Door :=
  mkDoor 20 (Some "Entry Door") None None (LocationPoint (pt 0 0)) facing.

Definition sample_document : Document :=
  mkDocument sample_view [sample_view] [] [] [].

Definition sample_world : World := mkWorld sample_document [].

(** A viewport 4 wide and 2 high, centred at the origin. *)
Definition sample_viewport : Viewport :=
  mkViewport 30 (pt 0 0) 2 1 (OutlineNames false true false).

(** A square room with an entry door on its lower edge, a closet door
    inside, and a second entry door across the corridor. *)
Definition in_unit_square (p : XYZ) : option bool :=
  Some (Qle_bool 0 (X p) && Qle_bool (X p) 1 && Qle_bool 0 (Y p) && Qle_bool (Y p) 1).

Definition sample_area : Area :=
  mkArea 40 "Suite 101" "101" ∅ [square_loop] in_unit_square
         (Some (mkBoundingBox (Some (pt 0 0)) (Some (pt 1 1)))).

Definition entry_door_here : Door :=
  mkDoor 21 (Some "36x84") None (Some (mkSymbol (Some "36x84") (Some "Suite Entry Door")))
         (LocationPoint (pt (1 # 2) 0)) (pt 0 0).

Definition closet_door : Door :=
  mkDoor 22 (Some "Closet") None None (LocationPoint (pt (1 # 2) (1 # 2))) (pt 0 0).

Definition entry_door_far : Door :=
  mkDoor 23 (Some "ENTRY") None None (LocationPoint (pt 5 5)) (pt 0 0).

Definition entry_door_near : Door :=
  mkDoor 24 (Some "Entry") None None (LocationPoint (pt 2 (1 # 2))) (pt 0 0).

Definition view_with_doors (doors : list Door) : View :=
  mkView 10 "Level 1" false true (pt 0 0) [] (Some doors) None None.

(** The same room without boundary segments, and one without a bounding
    box either. *)
Definition area_without_loops : Area :=
  mkArea 41 "Suite 102" "102" ∅ [] in_unit_square
         (Some (mkBoundingBox (Some (pt 0 0)) (Some (pt 1 1)))).

Definition area_without_anything : Area :=
  mkArea 42 "Suite 103" "103" ∅ [] in_unit_square None.

Definition unit_rectangle : list Curve :=
  [ mkCurve [pt 0 0; pt 1 0]; mkCurve [pt 1 0; pt 1 1];
    mkCurve [pt 1 1; pt 0 1]; mkCurve [pt 0 1; pt 0 0] ].

(** A document with what the scripts need: a plan view, a view template,
    a titleblock type and a filled region type. *)
Definition template_view : View :=
  mkView 11 "Marketing Template" true false (pt 0 0) [] None None None.

Definition sample_titleblock : TitleBlockType :=
  mkTitleBlockType 50 "Titleblock" "A1" [Some (pt 0 0, pt 10 8)] (pt 0 0, pt 10 8).

Definition sample_fill_type : FilledRegionType := mkFillType 60 "Solid Black".

Definition full_document : Document :=
  mkDocument (view_with_doors [entry_door_here])
             [view_with_doors [entry_door_here]; template_view] []
             [sample_titleblock] [sample_fill_type].

Definition full_world : World := mkWorld full_document [].

Definition sample_selection : MultipleUnits.Selection :=
  MultipleUnits.mkSelection None None template_view (Some template_view)
    (Some sample_fill_type) sample_titleblock false true.

(** A document in which the view name [Plan] and the sheet number [101]
    are taken, each with its first alternative. *)
Definition named_view (name : string) : View :=
  mkView 12 name false true (pt 0 0) [] None None None.

Definition numbered_sheet (number : string) : ViewSheet :=
  mkSheet 13 number "Sheet" [] (pt 0 0, pt 10 8).

Definition named_document : Document :=
  mkDocument sample_view
    [named_view "Plan"; named_view "Plan (1)"; named_view "Section"]
    [numbered_sheet "101"; numbered_sheet "101-copy"; numbered_sheet ""]
    [] [].

Definition named_world : World := mkWorld named_document [].


(** *** Further sample objects *)


(** A plan view that shows its own crop element, and one with a writable
    rotation parameter instead. *)
Definition view_with_crop_element : View :=
  mkView 14 "Suite 101" false true (pt 0 0)
         [mkViewElement 70 (Some "Other"); mkViewElement 71 (Some "Suite 101")]
         (Some []) None None.

Definition view_with_rotation_parameter : View :=
  mkView 15 "Suite 102" false true (pt 0 0) [] (Some [])
         None (Some (mkParameter StDouble None None 0 0 false)).
(** ** Part II: properties *)

(** *** Scripts that only read *)

Lemma bind_run {A B} (c : Script A) (k : A -> Script B) (w : World) :
  (c ≫= k) w = k (c w).1 (c w).2.
Proof. unfold mbind, script_bind. by destruct (c w). Qed.

Lemma reads_only_ret {A} (a : A) : reads_only (mret a).
Proof. intros w. split; [done|]. exists []. by rewrite app_nil_r. Qed.

Lemma reads_only_get_doc : reads_only get_doc.
Proof. intros w. split; [done|]. exists []. by rewrite app_nil_r. Qed.

Lemma reads_only_collect (c : ElemClass) : reads_only (emit (Collect c)).
Proof. intros w. split; [done|]. exists [Collect c]. split; [done|]. by constructor. Qed.

Lemma reads_only_bind {A B} (c : Script A) (k : A -> Script B) :
  reads_only c -> (forall a, reads_only (k a)) -> reads_only (c ≫= k).
Proof.
  intros Hc Hk w. rewrite bind_run.
  destruct (Hc w) as (Hd1 & r1 & Hl1 & Hr1).
  destruct (Hk (c w).1 (c w).2) as (Hd2 & r2 & Hl2 & Hr2).
  split; [congruence|]. exists (r1 ++ r2).
  split; [by rewrite Hl2, Hl1, app_assoc|]. by apply Forall_app.
Qed.

Lemma reads_only_if {A} (b : bool) (c1 c2 : Script A) :
  reads_only c1 -> reads_only c2 -> reads_only (if b then c1 else c2).
Proof. by destruct b. Qed.

Lemma reads_only_collect_views : reads_only collect_views.
Proof.
  unfold collect_views.
  repeat (apply reads_only_bind; [|intros ?]);
    auto using reads_only_collect, reads_only_get_doc, reads_only_ret.
Qed.

Lemma reads_only_collect_sheets : reads_only collect_sheets.
Proof.
  unfold collect_sheets.
  repeat (apply reads_only_bind; [|intros ?]);
    auto using reads_only_collect, reads_only_get_doc, reads_only_ret.
Qed.

Lemma reads_only_unique_view_name fuel base :
  reads_only (unique_view_name fuel base).
Proof.
  unfold unique_view_name.
  apply reads_only_bind; [apply reads_only_collect_views|intros views].
  case_decide; apply reads_only_ret.
Qed.

Lemma reads_only_unique_sheet_number fuel base :
  reads_only (unique_sheet_number fuel base).
Proof.
  unfold unique_sheet_number. case_decide; [apply reads_only_ret|].
  apply reads_only_bind; [apply reads_only_collect_sheets|intros sheets].
  case_decide; apply reads_only_ret.
Qed.

Lemma reads_only_unique_view_name_now base :
  reads_only (unique_view_name_now base).
Proof.
  unfold unique_view_name_now.
  apply reads_only_bind; [apply reads_only_get_doc|intros d].
  apply reads_only_bind; [apply reads_only_unique_view_name|intros r].
  apply reads_only_ret.
Qed.

Lemma reads_only_unique_sheet_number_now base :
  reads_only (unique_sheet_number_now base).
Proof.
  unfold unique_sheet_number_now.
  apply reads_only_bind; [apply reads_only_get_doc|intros d].
  apply reads_only_bind; [apply reads_only_unique_sheet_number|intros r].
  apply reads_only_ret.
Qed.

Lemma aborted_alert (w0 w : World) (msg title : string) :
  w_doc w = w_doc w0 ->
  (exists reads, w_log w = w_log w0 ++ reads /\
                 Forall (fun e => is_collect e = true) reads) ->
  aborted w0 (emit (Alert msg title) w).2.
Proof.
  intros Hd (reads & Hl & Hr). split; [done|].
  exists reads, msg, title. split; [|done]. simpl. by rewrite Hl, app_assoc.
Qed.

Lemma sort_by_nil {A K} (leb : K -> K -> bool) (key : A -> K) (l : list A) :
  sort_by leb key l = [] <-> l = [].
Proof.
  split; [|by intros ->].
  destruct l as [|x l]; [done|]. simpl.
  destruct (sort_by leb key l) as [|y s]; simpl; [done|].
  by destruct (leb (key x) (key y)).
Qed.

Section Abort.
Context `{HostAPI}.

Lemma keyplan_main_aborts (w : World) (config_areas : list Area)
    (steps : list KeyPlan.Step) :
  IsViewPlan (ActiveView (w_doc w)) = false \/
  filter (fun v => IsTemplate v = true) (doc_views (w_doc w)) = [] \/
  doc_fill_types (w_doc w) = [] ->
  aborted w (KeyPlan.main config_areas steps w).2.
Proof.
  intros Hpre. unfold KeyPlan.main. rewrite bind_run. cbn [get_doc fst snd].
  destruct (IsViewPlan (ActiveView (w_doc w))) eqn:Hplan; cbn [negb].
  2:{ apply aborted_alert; [done|]. exists []. by rewrite app_nil_r. }
  destruct Hpre as [?|Hpre]; [done|].
  rewrite bind_run.
  destruct (reads_only_collect_views w) as (Hd1 & r1 & Hl1 & Hr1).
  assert (Hviews : (collect_views w).1 = doc_views (w_doc w)) by reflexivity.
  rewrite Hviews. rewrite bind_run.
  set (w1 := (collect_views w).2) in *.
  set (w2 := (emit (Collect ClsFilledRegionType) w1).2).
  assert (Hd2 : w_doc w2 = w_doc w) by done.
  assert (Hl2 : exists reads, w_log w2 = w_log w ++ reads /\
                              Forall (fun e => is_collect e = true) reads).
  { exists (r1 ++ [Collect ClsFilledRegionType]). split.
    - change (w_log w2) with (w_log w1 ++ [Collect ClsFilledRegionType]).
      by rewrite Hl1, app_assoc.
    - apply Forall_app. split; [done|]. by constructor. }
  destruct Hpre as [Hno|Hno].
  - rewrite Hno. simpl sort_by. by apply aborted_alert.
  - rewrite Hno. simpl sort_by.
    destruct (sort_by _ _ _); by apply aborted_alert.
Qed.

Lemma marketing_main_aborts (w : World) (config_areas : list Area)
    (steps : list MultipleUnits.Step) :
  IsViewPlan (ActiveView (w_doc w)) = false \/
  filter (fun v => IsTemplate v = true) (doc_views (w_doc w)) = [] \/
  doc_fill_types (w_doc w) = [] \/
  doc_titleblock_types (w_doc w) = [] ->
  aborted w (MultipleUnits.main config_areas steps w).2.
Proof.
  intros Hpre. unfold MultipleUnits.main. rewrite bind_run. cbn [get_doc fst snd].
  destruct (IsViewPlan (ActiveView (w_doc w))) eqn:Hplan; cbn [negb].
  2:{ apply aborted_alert; [done|]. exists []. by rewrite app_nil_r. }
  destruct Hpre as [?|Hpre]; [done|].
  rewrite bind_run.
  destruct (reads_only_collect_views w) as (Hd1 & r1 & Hl1 & Hr1).
  assert (Hviews : (collect_views w).1 = doc_views (w_doc w)) by reflexivity.
  rewrite Hviews. rewrite !bind_run.
  set (w1 := (collect_views w).2) in *.
  set (w2 := (emit (Collect CatTitleBlockTypes) w1).2).
  set (w3 := (emit (Collect ClsFilledRegionType) w2).2).
  assert (Hd3 : w_doc w3 = w_doc w) by done.
  assert (Hl3 : exists reads, w_log w3 = w_log w ++ reads /\
                              Forall (fun e => is_collect e = true) reads).
  { exists (r1 ++ [Collect CatTitleBlockTypes; Collect ClsFilledRegionType]). split.
    - change (w_log w3)
        with ((w_log w1 ++ [Collect CatTitleBlockTypes]) ++ [Collect ClsFilledRegionType]).
      rewrite Hl1. by rewrite <- !app_assoc.
    - apply Forall_app. split; [done|]. by repeat constructor. }
  destruct Hpre as [Hno|[Hno|Hno]].
  - rewrite Hno. simpl sort_by. by apply aborted_alert.
  - rewrite Hno. simpl sort_by.
    destruct (sort_by _ _ _); by apply aborted_alert.
  - rewrite Hno. simpl sort_by.
    destruct (sort_by _ _ _); [by apply aborted_alert|].
    destruct (sort_by _ _ _); by apply aborted_alert.
Qed.

End Abort.

Section FirstFree.
Context (candidate : nat -> string) (existing : gset string).
Hypothesis candidate_inj : forall i j, candidate i = candidate j -> i = j.

Lemma first_free_None fuel index :
  first_free candidate existing fuel index = None ->
  forall j, index <= j < index + fuel -> candidate j ∈ existing.
Proof.
  revert index. induction fuel as [|fuel IH]; intros index Hnone j Hj; [lia|].
  simpl in Hnone. destruct (decide (candidate index ∈ existing)) as [Hin|Hout].
  - destruct (decide (j = index)) as [->|Hne]; [done|].
    apply (IH (S index)); [done|lia].
  - discriminate.
Qed.

Lemma first_free_Some fuel index r :
  first_free candidate existing fuel index = Some r ->
  exists i, (index <= i < index + fuel) /\ r = candidate i /\ (r ∉ existing) /\
            forall j, index <= j < i -> candidate j ∈ existing.
Proof.
  revert index. induction fuel as [|fuel IH]; intros index Hsome; [discriminate|].
  simpl in Hsome. destruct (decide (candidate index ∈ existing)) as [Hin|Hout].
  - destruct (IH _ Hsome) as (i & Hi & -> & Hfresh & Hmin).
    exists i. repeat split; [lia|lia|done|].
    intros j Hj. destruct (decide (j = index)) as [->|Hne]; [done|].
    apply Hmin. lia.
  - injection Hsome as <-. exists index. repeat split; [lia|lia|done|].
    intros j Hj. lia.
Qed.

(** More candidates than existing names: one of them is free. *)
Lemma first_free_enough fuel index :
  size existing < fuel -> is_Some (first_free candidate existing fuel index).
Proof.
  intros Hfuel.
  destruct (first_free candidate existing fuel index) as [r|] eqn:E; [by eexists|].
  exfalso.
  pose proof (first_free_None _ _ E) as Hall.
  set (l := candidate <$> seq index fuel).
  assert (Hnd : NoDup l).
  { apply NoDup_fmap_2; [|apply NoDup_seq].
    intros i j. apply candidate_inj. }
  assert (Hsub : list_to_set (C := gset string) l ⊆ existing).
  { intros x Hx. apply elem_of_list_to_set in Hx.
    apply list_elem_of_fmap in Hx as (j & -> & Hj).
    apply elem_of_seq in Hj. apply Hall. lia. }
  apply subseteq_size in Hsub.
  rewrite size_list_to_set in Hsub by done.
  unfold l in Hsub. rewrite length_fmap, length_seq in Hsub. lia.
Qed.

Lemma first_free_fuel_irrel fuel fuel' index r :
  first_free candidate existing fuel index = Some r ->
  fuel <= fuel' ->
  first_free candidate existing fuel' index = Some r.
Proof.
  revert fuel' index. induction fuel as [|fuel IH]; intros fuel' index E Hle;
    [discriminate|].
  destruct fuel' as [|fuel']; [lia|]. simpl in *.
  destruct (decide (candidate index ∈ existing)); [|done].
  apply IH; [done|lia].
Qed.

End FirstFree.

(** *** Candidate names are pairwise distinct *)

Lemma string_length_app (s t : string) :
  String.length (s +:+ t) = String.length s + String.length t.
Proof.
  induction s as [|a s IH]; [done|].
  change (S (String.length (s +:+ t)) = S (String.length s + String.length t)).
  by rewrite IH.
Qed.

Lemma string_app_inj_r (t s1 s2 : string) : s1 +:+ t = s2 +:+ t -> s1 = s2.
Proof.
  revert s2. induction s1 as [|a s1 IH]; intros [|b s2] E.
  - done.
  - apply (f_equal String.length) in E.
    change (String.length t = S (String.length (s2 +:+ t))) in E.
    rewrite string_length_app in E. lia.
  - apply (f_equal String.length) in E.
    change (S (String.length (s1 +:+ t)) = String.length t) in E.
    rewrite string_length_app in E. lia.
  - change (String a (s1 +:+ t) = String b (s2 +:+ t)) in E.
    injection E as -> E. f_equal. by apply IH.
Qed.

Lemma pretty_N_go_nonempty (x : N) (s : string) : s ≠ "" -> pretty_N_go x s ≠ "".
Proof.
  revert s. induction (N.lt_wf_0 x) as [x _ IH]. intros s Hs.
  destruct (decide (x = 0%N)) as [->|Hx].
  - by rewrite pretty_N_go_0.
  - rewrite pretty_N_go_step by lia. apply IH; [|done].
    apply N.div_lt; lia.
Qed.

Lemma pretty_nat_nonempty (n : nat) : pretty n ≠ "".
Proof.
  unfold pretty, pretty_nat, pretty, pretty_N.
  destruct (decide (N.of_nat n = 0%N)) as [_|Hn]; [done|].
  rewrite pretty_N_go_step by lia. by apply pretty_N_go_nonempty.
Qed.

Lemma view_candidate_inj base i j :
  view_candidate base i = view_candidate base j -> i = j.
Proof.
  unfold view_candidate. intros E.
  do 2 apply String.app_inj in E.
  apply string_app_inj_r in E. by apply (inj pretty).
Qed.

Lemma sheet_candidate_inj base i j :
  sheet_candidate base i = sheet_candidate base j -> i = j.
Proof.
  unfold sheet_candidate. intros E.
  do 2 apply String.app_inj in E.
  pose proof (pretty_nat_nonempty i). pose proof (pretty_nat_nonempty j).
  repeat case_decide; subst; try done.
  by apply (inj pretty).
Qed.

(** *** Running the generators *)

Lemma unique_view_name_run fuel base w :
  (unique_view_name fuel base w).1 =
    if decide (base ∈ existing_views w)
    then first_free (view_candidate base) (existing_views w) fuel 1
    else Some base.
Proof.
  unfold unique_view_name, existing_views, mbind, script_bind. simpl.
  by case_decide.
Qed.

Lemma unique_sheet_number_run fuel base w :
  (unique_sheet_number fuel base w).1 =
    if decide (base = "") then Some ""
    else if decide (base ∈ existing_numbers w)
    then first_free (sheet_candidate base) (existing_numbers w) fuel 1
    else Some base.
Proof.
  unfold unique_sheet_number, existing_numbers, mbind, script_bind.
  case_decide; [done|]. simpl. by case_decide.
Qed.

Lemma sheet_numbers_nonempty sheets : "" ∉ sheet_numbers sheets.
Proof.
  unfold sheet_numbers. rewrite elem_of_list_to_set, list_elem_of_filter.
  by intros [? _].
Qed.

Lemma unique_view_name_spec w base :
  exists r,
    (forall fuel, size (existing_views w) < fuel ->
                  (unique_view_name fuel base w).1 = Some r) /\
    (r ∉ existing_views w) /\
    (r = base \/
     exists i, 1 <= i /\ r = view_candidate base i /\
               forall j, 1 <= j < i -> view_candidate base j ∈ existing_views w).
Proof.
  destruct (decide (base ∈ existing_views w)) as [Hin|Hout].
  - destruct (first_free_enough _ (existing_views w) (view_candidate_inj base)
                (S (size (existing_views w))) 1) as [r Hr]; [lia|].
    exists r. destruct (first_free_Some _ _ _ _ _ Hr) as (i & Hi & -> & Hfresh & Hmin).
    split; [|split; [done|right; exists i; split; [lia|done]]].
    intros fuel Hfuel. rewrite unique_view_name_run, decide_True by done.
    eapply first_free_fuel_irrel; [exact Hr|lia].
  - exists base. split; [|split; [done|by left]].
    intros fuel _. by rewrite unique_view_name_run, decide_False.
Qed.

Lemma unique_sheet_number_spec w base :
  exists r,
    (forall fuel, size (existing_numbers w) < fuel ->
                  (unique_sheet_number fuel base w).1 = Some r) /\
    (r ∉ existing_numbers w) /\
    (r = base \/
     exists i, 1 <= i /\ r = sheet_candidate base i /\
               forall j, 1 <= j < i -> sheet_candidate base j ∈ existing_numbers w).
Proof.
  destruct (decide (base = "")) as [->|Hne].
  { exists "". split; [|split; [apply sheet_numbers_nonempty|by left]].
    intros fuel _. by rewrite unique_sheet_number_run. }
  destruct (decide (base ∈ existing_numbers w)) as [Hin|Hout].
  - destruct (first_free_enough _ (existing_numbers w) (sheet_candidate_inj base)
                (S (size (existing_numbers w))) 1) as [r Hr]; [lia|].
    exists r. destruct (first_free_Some _ _ _ _ _ Hr) as (i & Hi & -> & Hfresh & Hmin).
    split; [|split; [done|right; exists i; split; [lia|done]]].
    intros fuel Hfuel.
    rewrite unique_sheet_number_run, decide_False, decide_True by done.
    eapply first_free_fuel_irrel; [exact Hr|lia].
  - exists base. split; [|split; [done|by left]].
    intros fuel _. by rewrite unique_sheet_number_run, !decide_False.
Qed.

(** C1. For a fixed set of existing view names (sheet numbers) and a base
    name, [unique_view_name] and [unique_sheet_number] return, with enough
    fuel for the loop, one result that is not in the existing set; the
    result is the base itself or the base with the first free counter
    suffix; and the result depends on the document only through the set of
    existing names (determinism). *)
Theorem unique_names_fresh_and_deterministic (w : World) (base : string) :
  (exists r,
      (forall fuel, size (existing_views w) < fuel ->
                    (unique_view_name fuel base w).1 = Some r) /\
      (r ∉ existing_views w) /\
      (r = base \/
       exists i, 1 <= i /\ r = view_candidate base i /\
                 forall j, 1 <= j < i -> view_candidate base j ∈ existing_views w)) /\
  (exists r,
      (forall fuel, size (existing_numbers w) < fuel ->
                    (unique_sheet_number fuel base w).1 = Some r) /\
      (r ∉ existing_numbers w) /\
      (r = base \/
       exists i, 1 <= i /\ r = sheet_candidate base i /\
                 forall j, 1 <= j < i -> sheet_candidate base j ∈ existing_numbers w)) /\
  (forall w' fuel, existing_views w' = existing_views w ->
      (unique_view_name fuel base w').1 = (unique_view_name fuel base w).1) /\
  (forall w' fuel, existing_numbers w' = existing_numbers w ->
      (unique_sheet_number fuel base w').1 = (unique_sheet_number fuel base w).1).
Proof.
  split; [apply unique_view_name_spec|].
  split; [apply unique_sheet_number_spec|].
  split; intros w' fuel E.
  - by rewrite !unique_view_name_run, E.
  - by rewrite !unique_sheet_number_run, E.
Qed.

Lemma unique_names_fresh_and_deterministic_witness :
  exists r, (unique_view_name 4 "Plan" named_world).1 = Some r /\
            r ∉ existing_views named_world.
Proof.
  destruct (proj1 (unique_names_fresh_and_deterministic named_world "Plan"))
    as (r & Hr & Hfresh & _).
  exists r. split; [|exact Hfresh]. apply Hr. vm_compute. lia.
Defined.

Example unique_names_examples :
  (unique_view_name 4 "Plan" named_world).1 = Some "Plan (2)" /\
  (unique_view_name 4 "Elevation" named_world).1 = Some "Elevation" /\
  (unique_sheet_number 3 "101" named_world).1 = Some "101-copy2" /\
  (unique_sheet_number 3 "102" named_world).1 = Some "102" /\
  (unique_view_name 1 "Plan" named_world).1 = None.
Proof. repeat split; vm_compute; reflexivity. Qed.

(** C10. [unique_sheet_number] returns the empty string for an empty base
    number and leaves the world as it was: no collector is run, whatever
    the fuel.  For a non-empty base [B] that is taken, the candidates are
    [B-copy], [B-copy2], [B-copy3], ... and the first one that is not an
    existing sheet number is returned. *)
Theorem unique_sheet_number_empty_and_copies :
  (forall fuel w, unique_sheet_number fuel "" w = (Some "", w)) /\
  (forall B, sheet_candidate B 1 = B +:+ "-copy" +:+ "" /\
             sheet_candidate B 2 = B +:+ "-copy" +:+ "2" /\
             sheet_candidate B 3 = B +:+ "-copy" +:+ "3" /\
             forall i, 2 <= i -> sheet_candidate B i = B +:+ "-copy" +:+ pretty i) /\
  (forall w B, B ≠ "" -> B ∈ existing_numbers w ->
     exists i, 1 <= i /\
       (forall fuel, size (existing_numbers w) < fuel ->
          (unique_sheet_number fuel B w).1 = Some (sheet_candidate B i)) /\
       (sheet_candidate B i ∉ existing_numbers w) /\
       (forall j, 1 <= j < i -> sheet_candidate B j ∈ existing_numbers w)).
Proof.
  split; [done|]. split.
  { intros B. repeat split; try done.
    intros i Hi. unfold sheet_candidate. by rewrite decide_False by lia. }
  intros w B Hne Hin.
  destruct (first_free_enough _ (existing_numbers w) (sheet_candidate_inj B)
              (S (size (existing_numbers w))) 1) as [r Hr]; [lia|].
  destruct (first_free_Some _ _ _ _ _ Hr) as (i & Hi & -> & Hfresh & Hmin).
  exists i. split; [lia|]. split; [|done].
  intros fuel Hfuel.
  rewrite unique_sheet_number_run, decide_False, decide_True by done.
  eapply first_free_fuel_irrel; [exact Hr|lia].
Qed.


Lemma unique_sheet_number_empty_and_copies_witness :
  exists i, 1 <= i /\
    (unique_sheet_number 3 "101" named_world).1 = Some (sheet_candidate "101" i) /\
    (sheet_candidate "101" i ∉ existing_numbers named_world).
Proof.
  destruct (proj2 (proj2 unique_sheet_number_empty_and_copies) named_world "101")
    as (i & Hi & Hr & Hfresh & _).
  - discriminate.
  - vm_compute. reflexivity.
  - exists i. split; [exact Hi|]. split; [|exact Hfresh]. apply Hr. vm_compute. lia.
Defined.

(** *** The generators as the scripts call them *)

Lemma size_list_to_set_le (l : list string) :
  size (list_to_set (C := gset string) l) <= length l.
Proof.
  induction l as [|x l IH]; [done|].
  simpl. rewrite size_union_alt, size_singleton.
  pose proof (subseteq_size (list_to_set l ∖ {[x]}) (list_to_set (C := gset string) l)) as Hle.
  assert (Hsub : list_to_set l ∖ {[x]} ⊆ list_to_set (C := gset string) l).
  { intros y Hy. by apply elem_of_difference in Hy as [? _]. }
  specialize (Hle Hsub). lia.
Qed.

(** With one more unit of fuel than there are views, the fallback value
    of [unique_view_name_now] is never used: its result is the one of C1. *)
Lemma unique_view_name_now_fresh (base : string) (w : World) :
  ((unique_view_name_now base w).1 ∉ existing_views w) /\
  forall fuel, size (existing_views w) < fuel ->
    (unique_view_name fuel base w).1 = Some (unique_view_name_now base w).1.
Proof.
  destruct (unique_view_name_spec w base) as (r & Hr & Hfresh & _).
  assert (Hfuel : size (existing_views w) < S (length (doc_views (w_doc w)))).
  { unfold existing_views, view_names.
    pose proof (size_list_to_set_le (view_Name <$> doc_views (w_doc w))) as Hle.
    rewrite length_fmap in Hle. lia. }
  assert (E : (unique_view_name_now base w).1 = r).
  { unfold unique_view_name_now. rewrite !bind_run. cbn [get_doc fst snd].
    rewrite (Hr _ Hfuel). done. }
  rewrite E. split; [done|]. intros fuel Hf. by apply Hr.
Qed.

Lemma unique_sheet_number_now_fresh (base : string) (w : World) :
  ((unique_sheet_number_now base w).1 ∉ existing_numbers w) /\
  forall fuel, size (existing_numbers w) < fuel ->
    (unique_sheet_number fuel base w).1 = Some (unique_sheet_number_now base w).1.
Proof.
  destruct (unique_sheet_number_spec w base) as (r & Hr & Hfresh & _).
  assert (Hfuel : size (existing_numbers w) < S (length (doc_sheets (w_doc w)))).
  { unfold existing_numbers, sheet_numbers.
    pose proof (size_list_to_set_le
                  (filter (fun n => n ≠ "") (SheetNumber <$> doc_sheets (w_doc w)))) as Hle.
    pose proof (length_filter (fun n => n ≠ "") (SheetNumber <$> doc_sheets (w_doc w))) as Hf.
    rewrite length_fmap in Hf. lia. }
  assert (E : (unique_sheet_number_now base w).1 = r).
  { unfold unique_sheet_number_now. rewrite !bind_run. cbn [get_doc fst snd].
    rewrite (Hr _ Hfuel). done. }
  rewrite E. split; [done|]. intros fuel Hf. by apply Hr.
Qed.
(** *** Coalescing and the shoelace sum *)



































Example sliver_areas :
  (curve_loop_area_xy [mkCurve sliver] == 1 # 1048576)%Q /\
  (curve_loop_area_xy [mkCurve (rotate_closed sliver)] == 1 # 2097152)%Q /\
  tessellated_points [mkCurve sliver]
  = [pt 0 0; pt (1 # 524288) 0; pt 0 1; pt 0 0] /\
  tessellated_points [mkCurve (rotate_closed sliver)]
  = [pt (1 # 1048576) 0; pt 0 1; pt 0 0].
Proof. repeat split; vm_compute; reflexivity. Qed.

(** *** Rotation guard *)

(** C8. When the door's facing vector, projected to the XY plane, is
    shorter than 1e-9 (its squared length is below the squared threshold),
    [rotate_view_to_door] answers [False] with a reason and leaves the
    world as it was: no host call is made, so nothing is rotated. *)
Theorem rotate_view_to_door_zero_facing `{HostAPI} (view : View) (door : Door)
    (w : World) :
  (X (FacingOrientation door) * X (FacingOrientation door)
   + Y (FacingOrientation door) * Y (FacingOrientation door) < 1e-9 * 1e-9)%Q ->
  rotate_view_to_door view door w = ((false, "Door facing vector is zero."), w).
Proof.
  intros Hshort. unfold rotate_view_to_door, GetLength_lt.
  destruct (Qlt_le_dec _ _) as [_|Hge]; [done|].
  exfalso. unfold DotProduct in Hge. simpl in Hge. lra.
Qed.

Lemma rotate_view_to_door_zero_facing_witness :
  rotate_view_to_door sample_view (sample_door (pt 0 0)) sample_world
  = ((false, "Door facing vector is zero."), sample_world).
Proof.
  apply (rotate_view_to_door_zero_facing sample_view (sample_door (pt 0 0))).
  vm_compute. reflexivity.
Defined.

(** With a facing vector of ordinary length the guard does not fire. *)
Example rotate_view_to_door_rotates :
  (rotate_view_to_door sample_view (sample_door (pt 1 0)) sample_world).1
  = (false, "No crop element found and view rotation parameter is unavailable or read-only.").
Proof. vm_compute. reflexivity. Qed.

(** *** Clamping a viewport *)

Lemma outline_corners_box (vp : Viewport) :
  is_Some (GetBoxOutline vp ≫= outline_corners) ->
  GetBoxOutline vp ≫= outline_corners = Some (box_min vp, box_max vp).
Proof.
  unfold GetBoxOutline. destruct (vp_access vp) as [|a b c]; simpl.
  - by intros [? ?].
  - unfold outline_corners. destruct a, b, c; simpl; try done; by intros [? ?].
Qed.



Lemma clamp_keeps_size (vp : Viewport) (target bounds_min bounds_max : XYZ) :
  let vp' := _clamp_viewport_center vp target bounds_min bounds_max in
  vp_half_w vp' = vp_half_w vp /\ vp_half_h vp' = vp_half_h vp /\
  vp_access vp' = vp_access vp.
Proof.
  unfold _clamp_viewport_center.
  destruct (GetBoxOutline vp ≫= outline_corners) as [[? ?]|]; done.
Qed.


Section Placement.
Context `{HostAPI}.





End Placement.


(** The sample viewport is 4 wide: on a sheet 10 wide it is pushed right
    until its left edge is on the bound, on a sheet 3 wide it is centred. *)
Example clamp_pushes_inside :
  vp_center (_clamp_viewport_center sample_viewport (pt 0 0) (pt 0 0) (pt 10 10))
  = mkXYZ (Qmax (0 + (0 + 2 - (0 - 2)) / 2) (Qmin 0 (10 - (0 + 2 - (0 - 2)) / 2)))
          (Qmax (0 + (0 + 1 - (0 - 1)) / 2) (Qmin 0 (10 - (0 + 1 - (0 - 1)) / 2))) 0
  /\ (Qmax (0 + (0 + 2 - (0 - 2)) / 2) (Qmin 0 (10 - (0 + 2 - (0 - 2)) / 2)) == 2)%Q.
Proof. split; [reflexivity|vm_compute; reflexivity]. Qed.

Example clamp_centres_when_too_wide :
  (X (vp_center (_clamp_viewport_center sample_viewport (pt 0 0) (pt 0 0) (pt 3 10)))
   == 3 / 2)%Q.
Proof. vm_compute. reflexivity. Qed.
(** *** The parameter copy tool *)

Module ChangeParameterFacts.
Import ChangeParameter.

Lemma prefix_app (old b : string) : String.prefix old (old +:+ b) = true.
Proof.
  induction old as [|c old IH]; [by destruct b|].
  change (String c old +:+ b) with (String c (old +:+ b)). simpl.
  destruct (ascii_dec c c); [done|congruence].
Qed.

Lemma replace_go_skip old new (x b : string) :
  replace_go old new (String.length x) (x +:+ b) = replace_go old new 0 b.
Proof.
  induction x as [|c x IH]; [done|].
  change (String c x +:+ b) with (String c (x +:+ b)). simpl. apply IH.
Qed.

(** Where [old] starts, it is replaced and the scan resumes after it. *)
Lemma str_replace_at_match (old new b : string) :
  old <> "" ->
  str_replace (old +:+ b) old new = new +:+ str_replace b old new.
Proof.
  intros Hne. unfold str_replace. rewrite !decide_False by done.
  destruct old as [|c old]; [done|].
  change (String c old +:+ b) with (String c (old +:+ b)).
  unfold replace_go at 1; fold replace_go.
  change (String c (old +:+ b)) with (String c old +:+ b) at 1.
  rewrite prefix_app. f_equal.
  change (String.length (String c old) - 1)%nat with (String.length old - 0)%nat.
  rewrite Nat.sub_0_r. apply replace_go_skip.
Qed.

(** Where [old] does not start, the character is kept. *)
Lemma str_replace_no_match (old new : string) (c : ascii) (s : string) :
  old <> "" -> String.prefix old (String c s) = false ->
  str_replace (String c s) old new = String c (str_replace s old new).
Proof.
  intros Hne Hp. unfold str_replace. rewrite !decide_False by done.
  unfold replace_go at 1; fold replace_go. by rewrite Hp.
Qed.

(** A text in which [old] does not occur is left as it is. *)
Lemma str_replace_absent (old new s : string) :
  old <> "" -> contains old s = false -> str_replace s old new = s.
Proof.
  intros Hne. induction s as [|c s IH]; intros Hc.
  - unfold str_replace. by rewrite decide_False.
  - simpl in Hc. apply orb_false_iff in Hc as [Hp Hc].
    rewrite str_replace_no_match by done. by rewrite IH.
Qed.

Example str_replace_examples :
  str_replace "A-101-B" "-" "_" = "A_101_B" /\
  str_replace "aaa" "aa" "b" = "ba" /\
  str_replace "Level 1" "Level" "L" = "L 1" /\
  str_replace "plan" "x" "y" = "plan".
Proof. repeat split. Qed.




(** A source parameter whose string is null reads as the text [None]. *)
Example null_source_reads_as_None :
  get_parameter_value
    (mkElement 1 {[ "View Name" := mkParameter StString None None 0 0 true ]})
    "View Name" = Some "None".
Proof. vm_compute. reflexivity. Qed.

End ChangeParameterFacts.

(** *** Substring search in a joined, lowered text *)









(** *** The head of a stable sort *)

Section SortBy.
Context {A K : Type} (leb : K -> K -> bool) (key : A -> K).
Hypothesis leb_total : forall a b, leb a b = true \/ leb b a = true.
Hypothesis leb_trans : forall a b c, leb a b = true -> leb b c = true -> leb a c = true.

Lemma insert_by_elem (x y : A) (l : list A) :
  y ∈ insert_by leb key x l <-> y = x \/ y ∈ l.
Proof.
  induction l as [|z l IH]; simpl.
  - rewrite list_elem_of_singleton, elem_of_nil. tauto.
  - destruct (leb (key x) (key z)).
    + by rewrite elem_of_cons.
    + rewrite !elem_of_cons, IH. tauto.
Qed.

Lemma sort_by_elem (y : A) (l : list A) : y ∈ sort_by leb key l <-> y ∈ l.
Proof.
  induction l as [|x l IH]; [done|].
  simpl. by rewrite insert_by_elem, IH, elem_of_cons.
Qed.

Lemma head_insert_by (x : A) (l : list A) :
  head (insert_by leb key x l)
  = match head l with
    | Some y => if leb (key x) (key y) then Some x else Some y
    | None => Some x
    end.
Proof. destruct l as [|y l]; [done|]. simpl. by destruct (leb _ _). Qed.

Lemma head_sort_by_min (l : list A) :
  match head (sort_by leb key l) with
  | Some m => m ∈ l /\ forall y, y ∈ l -> leb (key m) (key y) = true
  | None => l = []
  end.
Proof.
  induction l as [|x l IH]; [done|].
  simpl. rewrite head_insert_by.
  destruct (head (sort_by leb key l)) as [m|].
  - destruct IH as [Hm Hmin].
    destruct (leb (key x) (key m)) eqn:E.
    + split; [apply elem_of_cons; by left|]. intros y [->|Hy]%elem_of_cons.
      * by destruct (leb_total (key x) (key x)).
      * eauto.
    + split; [apply elem_of_cons; by right|]. intros y [->|Hy]%elem_of_cons.
      * destruct (leb_total (key x) (key m)); congruence.
      * eauto.
  - subst l. split; [apply elem_of_cons; by left|].
    intros y ->%list_elem_of_singleton.
    by destruct (leb_total (key x) (key x)).
Qed.

End SortBy.

Lemma key_leb_total (a b : option Q) : key_leb a b = true \/ key_leb b a = true.
Proof.
  destruct a as [x|], b as [y|]; simpl; auto.
  rewrite !Qle_bool_iff. destruct (Qlt_le_dec x y) as [Hlt|Hle]; [left|right]; lra.
Qed.

Lemma key_leb_trans (a b c : option Q) :
  key_leb a b = true -> key_leb b c = true -> key_leb a c = true.
Proof.
  destruct a as [x|], b as [y|], c as [z|]; simpl; try done.
  rewrite !Qle_bool_iff. lra.
Qed.

Lemma Zleb_total (a b : Z) : Z.leb a b = true \/ Z.leb b a = true.
Proof. rewrite !Z.leb_le. lia. Qed.

Lemma Zleb_trans (a b c : Z) :
  Z.leb a b = true -> Z.leb b c = true -> Z.leb a c = true.
Proof. rewrite !Z.leb_le. lia. Qed.

(** *** Finding the entry door *)

Section EntryDoor.
Context `{HostAPI}.

Lemma door_in_area_points (area : Area) (door : Door) :
  door_in_area area door = true <->
  exists pt, pt ∈ _door_points_for_check door /\ IsPointInArea area pt = Some true.
Proof.
  unfold door_in_area. rewrite existsb_exists. split.
  - intros (pt & Hin & Hpt). exists pt. split; [by apply list_elem_of_In|].
    by destruct (IsPointInArea area pt) as [[|]|].
  - intros (pt & Hin & Hpt). exists pt. split; [by apply list_elem_of_In|].
    by rewrite Hpt.
Qed.



End EntryDoor.


Example entry_door_found_inside :
  find_entry_door_in_area (Some sample_area)
    (view_with_doors [closet_door; entry_door_far; entry_door_here])
  = Some entry_door_here.
Proof. vm_compute. reflexivity. Qed.

Example entry_door_nearest_fallback :
  find_entry_door_in_area (Some sample_area)
    (view_with_doors [closet_door; entry_door_far; entry_door_near])
  = Some entry_door_near.
Proof. vm_compute. reflexivity. Qed.

Example no_entry_door :
  find_entry_door_in_area (Some sample_area) (view_with_doors [closet_door]) = None.
Proof. vm_compute. reflexivity. Qed.

(** *** The outer boundary loop *)

Section OuterLoop.
Context `{HostAPI}.






(** *** What the scripts do when there is no loop *)





End OuterLoop.



(** The square room has one loop, and that is the one returned. *)
Example outer_loop_of_sample_area :
  get_outer_boundary_loop sample_area = Some (mkCurve <$> [[pt 0 0; pt 1 0; pt 1 1; pt 0 1; pt 0 0]]).
Proof. vm_compute. reflexivity. Qed.

(** The keyplan script on the room without boundary segments: the
    rectangle of the bounding box is filled, without a warning. *)
Example keyplan_uses_bounding_box :
  let run := KeyPlan.keyplan_area sample_view template_view sample_fill_type
               area_without_loops full_world in
  r_failed run.1 = false /\ r_warnings run.1 = [] /\
  last (w_log run.2) = Some (CreateFilledRegion 60 112 unit_rectangle).
Proof. vm_compute. repeat split. Qed.

(** *** Stopping before the transaction *)

(** Nothing in an aborted run opens a transaction or changes the
    document. *)
Lemma aborted_no_transaction (w w' : World) :
  aborted w w' ->
  exists events, w_log w' = w_log w ++ events /\
    Forall (fun e => changes_document e = false /\
                     forall name, e <> TransactionStart name) events.
Proof.
  intros (_ & reads & msg & title & Hl & Hr).
  exists (reads ++ [Alert msg title]). split; [done|].
  apply Forall_app. split.
  - eapply Forall_impl; [exact Hr|]. intros [] ?; done.
  - by repeat constructor.
Qed.

(** C7. When the active view is not a plan view, or the document has no
    view templates or no filled region types, or (marketing script) no
    titleblock types, [main] only runs collectors, shows one alert and
    returns: the document is as it was and no transaction is opened. *)
Theorem precondition_failure_aborts `{HostAPI} (w : World)
    (config_areas : list Area) :
  let no_plan := IsViewPlan (ActiveView (w_doc w)) = false in
  let no_templates :=
    filter (fun v => IsTemplate v = true) (doc_views (w_doc w)) = [] in
  let no_fill_types := doc_fill_types (w_doc w) = [] in
  let no_titleblocks := doc_titleblock_types (w_doc w) = [] in
  (forall steps, no_plan \/ no_templates \/ no_fill_types ->
     aborted w (KeyPlan.main config_areas steps w).2) /\
  (forall steps, no_plan \/ no_templates \/ no_fill_types \/ no_titleblocks ->
     aborted w (MultipleUnits.main config_areas steps w).2).
Proof.
  split; intros steps Hpre.
  - by apply keyplan_main_aborts.
  - by apply marketing_main_aborts.
Qed.

Lemma precondition_failure_aborts_witness :
  aborted sample_world
    (KeyPlan.main [sample_area] [KeyPlan.Ok template_view sample_fill_type]
       sample_world).2 /\
  aborted sample_world
    (MultipleUnits.main [sample_area] [MultipleUnits.Ok sample_selection]
       sample_world).2.
Proof.
  destruct (precondition_failure_aborts sample_world [sample_area]) as (Hk & Hm).
  split.
  - apply Hk. right. left. vm_compute. reflexivity.
  - apply Hm. right. right. right. vm_compute. reflexivity.
Defined.

(** The sample document has no view template. *)
Example keyplan_main_without_templates :
  (KeyPlan.main [sample_area] [KeyPlan.Ok template_view sample_fill_type] sample_world).2
  = mkWorld sample_document
      [Collect ClsView; Collect ClsFilledRegionType;
       Alert "No view templates found for this view type." "Make Keyplans"].
Proof. vm_compute. reflexivity. Qed.

(** With everything in place and the form confirmed, the transaction is
    opened, a sheet is created and the run ends with the report. *)
Example marketing_main_runs :
  let w' := (MultipleUnits.main [sample_area] [MultipleUnits.Ok sample_selection]
               full_world).2 in
  TransactionStart "Make Marketing View" ∈ w_log w' /\
  CreateSheet 50 250 ∈ w_log w' /\
  SheetNumber <$> doc_sheets (w_doc w') = ["101"] /\
  last (w_log w')
  = Some (Alert ("Created 1 sheet(s):" +:+ newline +:+ "- 101 (Suite 101)"
                 +:+ newline +:+ newline +:+ "Warnings:" +:+ newline
                 +:+ "Rotation failed: Door facing vector is zero.")
                "Marketing Sheets Created").
Proof.
  vm_compute. repeat split; apply list_elem_of_In; simpl; tauto.
Qed.

(** ** Further geometry properties *)

(** *** The rectangle of a bounding box *)








(** *** Moving a loop *)










(** *** The first largest loop *)

Section FirstBest.
Context `{HostAPI}.






End FirstBest.


(** *** When a loop has a centroid *)



(** *** Moving the centroid *)


Section CentroidMoves.
Local Open Scope Q_scope.











End CentroidMoves.


Section CentroidMoves2.
Local Open Scope Q_scope.





End CentroidMoves2.


(** ** Further properties of rotation and viewport placement *)

Ltac run_script :=
  cbv [mbind script_bind emit mret script_ret get_doc set_doc];
  cbn [fst snd w_doc w_log].

Section RotationEffects.
Context `{HostAPI}.

(** X6. [rotate_view_to_door] answers [True] exactly when it has made one
    rotation call: after making the crop box visible and regenerating, it
    turns the crop element if the view shows one, and otherwise sets the
    rotation parameter, which is then not read-only.  When it answers
    [False] it has either called nothing or only made the crop box visible
    and regenerated. *)
Theorem rotate_view_to_door_events (view : View) (door : Door) (w : World) :
  let run := rotate_view_to_door view door w in
  exists events, w_log run.2 = w_log w ++ events /\
    (run.1.1 = true ->
       exists e, events = [SetCropBoxVisible (view_Id view); Regenerate; e] /\
                 is_rotation view e) /\
    (run.1.1 = false ->
       events = [] \/ events = [SetCropBoxVisible (view_Id view); Regenerate]).
Proof.
  unfold rotate_view_to_door.
  destruct (GetLength_lt _ _).
  { run_script. exists []. rewrite app_nil_r. split; [done|]. split; [done|]. by left. }
  destruct (Qlt_le_dec _ _) as [?|?].
  { run_script. exists []. rewrite app_nil_r. split; [done|]. split; [done|]. by left. }
  set (angle := atan2 _ _).
  destruct (find_crop_element view) as [crop|] eqn:Ecrop.
  { run_script. eexists. rewrite <- !app_assoc. split; [reflexivity|].
    split; [|done]. intros _. eexists. split; [reflexivity|].
    left. eexists _, _. split; [done|]. by exists crop. }
  unfold is_rotation. rewrite Ecrop.
  destruct (VIEW_PLAN_ROTATION view) as [p|] eqn:Ep; cbn [py_or].
  - destruct (IsReadOnly p) eqn:Ero.
    + run_script. eexists. rewrite <- !app_assoc. split; [reflexivity|].
      split; [done|]. intros _. by right.
    + run_script. eexists. rewrite <- !app_assoc. split; [reflexivity|].
      split; [|done]. intros _. eexists. split; [reflexivity|].
      right. eexists. split; [done|]. split; [done|]. by exists p.
  - destruct (View_Rotation view) as [p|] eqn:Ep'.
    + destruct (IsReadOnly p) eqn:Ero.
      * run_script. eexists. rewrite <- !app_assoc. split; [reflexivity|].
        split; [done|]. intros _. by right.
      * run_script. eexists. rewrite <- !app_assoc. split; [reflexivity|].
        split; [|done]. intros _. eexists. split; [reflexivity|].
        right. eexists. split; [done|]. split; [done|]. by exists p.
    + run_script. eexists. rewrite <- !app_assoc. split; [reflexivity|].
      split; [done|]. intros _. by right.
Qed.

End RotationEffects.

Section ClampMore.
Local Open Scope Q_scope.


Lemma Qmax_Qmin_between (lo hi t : Q) :
  lo <= t -> t <= hi -> Qmax lo (Qmin t hi) == t.
Proof.
  intros Hlo Hhi.
  rewrite (Q.min_l t hi) by done. by rewrite Q.max_r.
Qed.

Lemma Qmax_Qmin_bounds (lo hi t : Q) :
  lo <= hi -> lo <= Qmax lo (Qmin t hi) /\ Qmax lo (Qmin t hi) <= hi.
Proof.
  intros H. split; [apply Q.le_max_l|].
  apply Q.max_lub; [done|apply Q.le_min_r].
Qed.

(** The centre that [_clamp_viewport_center] sets, for a viewport with a
    readable outline. *)
Lemma clamp_center_readable (vp : Viewport) (target bmin bmax : XYZ) :
  is_Some (GetBoxOutline vp ≫= outline_corners) ->
  let half_w := (X (box_max vp) - X (box_min vp)) / 2 in
  let half_h := (Y (box_max vp) - Y (box_min vp)) / 2 in
  vp_center (_clamp_viewport_center vp target bmin bmax)
  = mkXYZ (if Qlt_le_dec (X bmax - X bmin) (2 * half_w)
           then (X bmin + X bmax) / 2
           else Qmax (X bmin + half_w) (Qmin (X target) (X bmax - half_w)))
          (if Qlt_le_dec (Y bmax - Y bmin) (2 * half_h)
           then (Y bmin + Y bmax) / 2
           else Qmax (Y bmin + half_h) (Qmin (Y target) (Y bmax - half_h)))
          0.
Proof.
  intros Hsome. unfold _clamp_viewport_center.
  rewrite (outline_corners_box vp Hsome). done.
Qed.

Lemma box_half_w (vp : Viewport) : (X (box_max vp) - X (box_min vp)) / 2 == vp_half_w vp.
Proof. unfold box_max, box_min. cbn [X]. field. Qed.

Lemma box_half_h (vp : Viewport) : (Y (box_max vp) - Y (box_min vp)) / 2 == vp_half_h vp.
Proof. unfold box_max, box_min. cbn [Y]. field. Qed.

Lemma clamp_x_fits (vp : Viewport) (target bmin bmax : XYZ) :
  is_Some (GetBoxOutline vp ≫= outline_corners) ->
  X bmin + vp_half_w vp <= X target -> X target <= X bmax - vp_half_w vp ->
  X (vp_center (_clamp_viewport_center vp target bmin bmax)) == X target.
Proof.
  intros Hsome Hlo Hhi. rewrite clamp_center_readable by done. cbn [X].
  pose proof (box_half_w vp) as Ew.
  destruct (Qlt_le_dec _ _) as [Hlt|_]; [exfalso; lra|].
  apply Qmax_Qmin_between; lra.
Qed.

Lemma clamp_y_fits (vp : Viewport) (target bmin bmax : XYZ) :
  is_Some (GetBoxOutline vp ≫= outline_corners) ->
  Y bmin + vp_half_h vp <= Y target -> Y target <= Y bmax - vp_half_h vp ->
  Y (vp_center (_clamp_viewport_center vp target bmin bmax)) == Y target.
Proof.
  intros Hsome Hlo Hhi. rewrite clamp_center_readable by done. cbn [Y].
  pose proof (box_half_h vp) as Eh.
  destruct (Qlt_le_dec _ _) as [Hlt|_]; [exfalso; lra|].
  apply Qmax_Qmin_between; lra.
Qed.

(** X7. [_clamp_viewport_center] puts a viewport with a readable outline on
    the target in every axis in which the viewport fits there between the
    bounds, always at height 0; a viewport whose outline cannot be read is
    put on the target as it is.  The viewport keeps its id and size. *)
Theorem clamp_keeps_fitting_target (vp : Viewport) (target bmin bmax : XYZ) :
  let vp' := _clamp_viewport_center vp target bmin bmax in
  (is_Some (GetBoxOutline vp ≫= outline_corners) ->
   (X bmin + vp_half_w vp <= X target /\ X target <= X bmax - vp_half_w vp ->
    X (vp_center vp') == X target) /\
   (Y bmin + vp_half_h vp <= Y target /\ Y target <= Y bmax - vp_half_h vp ->
    Y (vp_center vp') == Y target) /\
   Zc (vp_center vp') = 0) /\
  (GetBoxOutline vp ≫= outline_corners = None ->
   vp_center vp' = mkXYZ (X target) (Y target) 0) /\
  vp_Id vp' = vp_Id vp /\ vp_half_w vp' = vp_half_w vp /\ vp_half_h vp' = vp_half_h vp.
Proof.
  cbv zeta. split; [|split].
  - intros Hsome. split; [|split].
    + intros [? ?]. by apply clamp_x_fits.
    + intros [? ?]. by apply clamp_y_fits.
    + by rewrite clamp_center_readable.
  - intros Hnone. unfold _clamp_viewport_center. by rewrite Hnone.
  - unfold _clamp_viewport_center.
    destruct (GetBoxOutline vp ≫= outline_corners) as [[??]|]; done.
Qed.

Lemma readable_after_clamp (vp : Viewport) (target bmin bmax : XYZ) :
  is_Some (GetBoxOutline vp ≫= outline_corners) ->
  is_Some (GetBoxOutline (_clamp_viewport_center vp target bmin bmax) ≫= outline_corners).
Proof.
  intros [c Hc]. unfold _clamp_viewport_center. rewrite Hc. destruct c as [a b].
  unfold GetBoxOutline, SetBoxCenter_of in *. cbn [vp_access] in *.
  destruct (vp_access vp) as [|[] [] []]; cbn in *; try done; by eexists.
Qed.

(** X8. Clamping is idempotent: a viewport that [_clamp_viewport_center] has
    placed stays where it is when it is clamped again towards its own
    centre within the same bounds. *)
Theorem clamp_idempotent (vp : Viewport) (target bmin bmax : XYZ) :
  is_Some (GetBoxOutline vp ≫= outline_corners) ->
  let vp' := _clamp_viewport_center vp target bmin bmax in
  let vp'' := _clamp_viewport_center vp' (vp_center vp') bmin bmax in
  X (vp_center vp'') == X (vp_center vp') /\
  Y (vp_center vp'') == Y (vp_center vp') /\
  Zc (vp_center vp'') = Zc (vp_center vp').
Proof.
  intros Hsome vp' vp''.
  assert (Hsome' : is_Some (GetBoxOutline vp' ≫= outline_corners))
    by by apply readable_after_clamp.
  destruct (clamp_keeps_size vp target bmin bmax) as (Ew & Eh & _). fold vp' in Ew, Eh.
  pose proof (box_half_w vp) as Bw. pose proof (box_half_h vp) as Bh.
  pose proof (box_half_w vp') as Bw'. pose proof (box_half_h vp') as Bh'.
  rewrite Ew in Bw'. rewrite Eh in Bh'.
  unfold vp''. rewrite (clamp_center_readable vp') by done.
  unfold vp'. rewrite (clamp_center_readable vp) by done. cbn [X Y Zc].
  fold vp'. split; [|split; [|done]].
  - destruct (Qlt_le_dec (X bmax - X bmin) (2 * ((X (box_max vp') - X (box_min vp')) / 2)));
      destruct (Qlt_le_dec (X bmax - X bmin) (2 * ((X (box_max vp) - X (box_min vp)) / 2)));
      try reflexivity; try (exfalso; lra).
    rewrite Bw', <- Bw.
    apply Qmax_Qmin_between; apply Qmax_Qmin_bounds; lra.
  - destruct (Qlt_le_dec (Y bmax - Y bmin) (2 * ((Y (box_max vp') - Y (box_min vp')) / 2)));
      destruct (Qlt_le_dec (Y bmax - Y bmin) (2 * ((Y (box_max vp) - Y (box_min vp)) / 2)));
      try reflexivity; try (exfalso; lra).
    rewrite Bh', <- Bh.
    apply Qmax_Qmin_between; apply Qmax_Qmin_bounds; lra.
Qed.




Section SideBySide.
Context `{HostAPI}.



End SideBySide.

End ClampMore.


Lemma clamp_keeps_fitting_target_witness :
  (X (vp_center (_clamp_viewport_center sample_viewport (pt 5 4) (pt 0 0) (pt 10 8)))
   == 5)%Q.
Proof.
  apply (proj1 (proj1 (clamp_keeps_fitting_target sample_viewport (pt 5 4) (pt 0 0) (pt 10 8))
                  ltac:(by eexists))).
  split; vm_compute; discriminate.
Defined.

Lemma clamp_idempotent_witness :
  let vp' := _clamp_viewport_center sample_viewport (pt 0 0) (pt 0 0) (pt 10 8) in
  (X (vp_center (_clamp_viewport_center vp' (vp_center vp') (pt 0 0) (pt 10 8)))
   == X (vp_center vp'))%Q.
Proof.
  apply (clamp_idempotent sample_viewport (pt 0 0) (pt 0 0) (pt 10 8)).
  by eexists.
Defined.

Example rotate_view_to_door_by_crop_element :
  rotate_view_to_door view_with_crop_element (sample_door (pt 1 0)) sample_world
  = ((true, "Rotated crop element 71 by 0.00 deg."),
     mkWorld sample_document
       [SetCropBoxVisible 14; Regenerate;
        RotateElement 71 (pt 0 0)
          (atan2 (DotProduct (CrossProduct BasisY (pt 1 0)) BasisZ)
                 (DotProduct BasisY (pt 1 0)))]).
Proof. reflexivity. Qed.

Example rotate_view_to_door_by_parameter :
  (rotate_view_to_door view_with_rotation_parameter (sample_door (pt 1 0)) sample_world).1
  = (true, "Rotated view parameter by 0.00 deg.").
Proof. reflexivity. Qed.

(** ** Further properties of the parameter copy tool *)

Module ChangeParameterMore.
Import ChangeParameter ChangeParameterFacts.

(** *** Replacing text *)

Lemma prefix_split (old s : string) :
  String.prefix old s = true -> exists b, s = old +:+ b.
Proof.
  revert s. induction old as [|c old IH]; intros s Hp.
  - by exists s.
  - destruct s as [|c' s]; [done|]. simpl in Hp.
    destruct (ascii_dec c c') as [->|]; [|done].
    destruct (IH s Hp) as [b ->]. by exists b.
Qed.

Lemma replace_go_same (old : string) (n : nat) (s : string) :
  old <> "" -> String.length s <= n -> replace_go old old 0 s = s.
Proof.
  intros Hne. revert s. induction n as [|n IH]; intros s Hlen.
  - by destruct s; [|simpl in Hlen; lia].
  - destruct s as [|c s]; [done|]. simpl in Hlen.
    unfold replace_go; fold replace_go.
    destruct (String.prefix old (String c s)) eqn:Hp.
    + destruct (prefix_split _ _ Hp) as [b Hb].
      destruct old as [|c0 old]; [done|].
      change (String c0 old +:+ b) with (String c0 (old +:+ b)) in Hb.
      injection Hb as -> ->.
      change (String.length (String c0 old) - 1)%nat with (String.length old - 0)%nat.
      rewrite Nat.sub_0_r, replace_go_skip.
      rewrite IH; [done|]. rewrite string_length_app in Hlen. lia.
    + f_equal. apply IH. lia.
Qed.

Lemma intersperse_empty (s : string) : intersperse_all "" s = s.
Proof. induction s as [|c s IH]; [done|]. simpl. by rewrite IH. Qed.

(** [s.replace(old, new)] gives [s] back when [old] does not occur in [s],
    and when [old] is replaced by itself. *)
Lemma str_replace_identity (s old new : string) :
  (old <> "" -> contains old s = false -> str_replace s old new = s) /\
  str_replace s old old = s.
Proof.
  split; [apply str_replace_absent|].
  unfold str_replace. destruct (decide (old = "")) as [->|Hne].
  - apply intersperse_empty.
  - by apply (replace_go_same old (String.length s)).
Qed.

(** *** One element *)


Lemma set_parameter_value_id (e : Element) (name value : string) :
  elem_Id (set_parameter_value e name value).1 = elem_Id e.
Proof.
  unfold set_parameter_value.
  destruct (LookupParameter e name) as [p|]; [|done]. by destruct (IsReadOnly p).
Qed.






(** X12. The loop body writes the source value itself to the target when no
    find text is given, when the find text does not occur in the value,
    and when the replacement is the find text. *)
Theorem copy_without_match_keeps_value (config : Config) (e : Element) (v : string) :
  get_parameter_value e (source_param config) = Some v ->
  find_text config = "" \/ contains (find_text config) v = false \/
  replace_text config = find_text config ->
  process_element config e = set_parameter_value e (target_param config) v.
Proof.
  intros Hv Hcase. unfold process_element. rewrite Hv.
  destruct (decide (find_text config = "")) as [|Hne]; [done|].
  destruct Hcase as [?|[Habsent| ->]]; [done| |].
  - by rewrite (proj1 (str_replace_identity v _ _)).
  - by rewrite (proj2 (str_replace_identity v _ (find_text config))).
Qed.

Lemma copy_without_match_keeps_value_witness :
  process_element (mkConfig "View Name" "Title on Sheet" "Roof" "R") sample_element
  = set_parameter_value sample_element "Title on Sheet" "Level 1 - Plan".
Proof.
  apply (copy_without_match_keeps_value
           (mkConfig "View Name" "Title on Sheet" "Roof" "R") sample_element).
  - reflexivity.
  - right. left. reflexivity.
Defined.

(** *** The whole selection *)

Lemma filter_true_false_length {A} (l : list (A * bool)) :
  length (filter (fun r => r.2 = true) l) + length (filter (fun r => r.2 = false) l)
  = length l.
Proof.
  induction l as [|[a b] l IH]; [done|].
  rewrite !filter_cons. cbn [snd]. destruct b.
  - rewrite decide_True, decide_False by done. simpl. lia.
  - rewrite decide_False, decide_True by done. simpl. lia.
Qed.

(** X13. Every selected element is counted once, as a success or as a failure,
    and the processed elements are the selected ones in their order: same
    number, same ids. *)
Theorem main_counts_every_element (elements : list Element) (config : Config) :
  elements <> [] ->
  exists elements' success_count error_count,
    main elements (Some config) = Processed elements' success_count error_count /\
    success_count + error_count = length elements /\
    elem_Id <$> elements' = elem_Id <$> elements /\
    success_count = length (filter (fun e => (process_element config e).2 = true) elements).
Proof.
  intros Hne. unfold main. destruct elements as [|e0 rest] eqn:E; [done|].
  rewrite <- E. clear E Hne e0 rest.
  eexists _, _, _. split; [reflexivity|]. split; [|split].
  - rewrite filter_true_false_length. by rewrite length_fmap.
  - rewrite <- !list_fmap_compose. apply list_fmap_ext. intros i e _. cbn.
    unfold process_element. destruct (get_parameter_value e _); [|done].
    apply set_parameter_value_id.
  - induction elements as [|e l IH]; [done|].
    rewrite fmap_cons, !filter_cons. cbn [snd].
    destruct (decide ((process_element config e).2 = true)); simpl; by rewrite IH.
Qed.

Lemma main_counts_every_element_witness :
  exists elements' success_count error_count,
    main [sample_element] (Some sample_config)
    = Processed elements' success_count error_count /\
    success_count + error_count = 1.
Proof.
  destruct (main_counts_every_element [sample_element] sample_config)
    as (elements' & ok & err & Hrun & Hsum & _); [discriminate|].
  exists elements', ok, err. split; [exact Hrun|exact Hsum].
Defined.

End ChangeParameterMore.

(** ** Further properties of the two view scripts

    As in the model, a host call that the scripts do not guard with a
    [try] is taken to return: no exception leaves the transaction. *)


#[local] Instance any_doc_refl : Reflexive any_doc.
Proof. done. Qed.

#[local] Instance any_doc_trans : Transitive any_doc.
Proof. done. Qed.

Section ScriptPost.
Context (R : relation Document) `{!Reflexive R, !Transitive R} (p : Event -> bool).

Lemma post_ret {A} (Q : A -> Prop) (a : A) : Q a -> script_post R p Q (mret a).
Proof.
  intros HQ w. split; [done|]. split; [done|]. exists []. by rewrite app_nil_r.
Qed.

Lemma post_emit (Q : unit -> Prop) (e : Event) :
  p e = true -> Q tt -> script_post R p Q (emit e).
Proof.
  intros Hp HQ w. split; [done|]. split; [done|]. exists [e]. split; [done|]. by constructor.
Qed.

Lemma post_get_doc : script_post R p anything get_doc.
Proof. intros w. split; [done|]. split; [done|]. exists []. by rewrite app_nil_r. Qed.

Lemma post_bind {A B} (Q : B -> Prop) (c : Script A) (k : A -> Script B) :
  script_post R p anything c -> (forall a, script_post R p Q (k a)) ->
  script_post R p Q (c ≫= k).
Proof.
  intros Hc Hk w. rewrite bind_run.
  destruct (Hc w) as (_ & Hd1 & r1 & Hl1 & Hr1).
  destruct (Hk (c w).1 (c w).2) as (HQ & Hd2 & r2 & Hl2 & Hr2).
  split; [done|]. split; [by etrans|]. exists (r1 ++ r2).
  split; [by rewrite Hl2, Hl1, app_assoc|]. by apply Forall_app.
Qed.


Lemma post_for_each {A B} (Q : A -> B -> Prop) (body : A -> Script B) (l : list A) :
  (forall x, script_post R p (Q x) (body x)) ->
  script_post R p (Forall2 Q l) (for_each body l).
Proof.
  intros Hbody. induction l as [|x l IH]; simpl.
  - by apply post_ret.
  - intros w. rewrite bind_run.
    destruct (Hbody x w) as (HQ1 & Hd1 & r1 & Hl1 & Hr1).
    set (w1 := (body x w).2) in *. rewrite bind_run.
    destruct (IH w1) as (HQ2 & Hd2 & r2 & Hl2 & Hr2).
    cbn [mret script_ret fst snd].
    split; [by constructor|]. split; [by etrans|]. exists (r1 ++ r2).
    split; [by rewrite Hl2, Hl1, app_assoc|]. by apply Forall_app.
Qed.

End ScriptPost.

Lemma post_reads {A} (R : relation Document) `{!Reflexive R} (p : Event -> bool)
    (c : Script A) :
  (forall e, is_collect e = true -> p e = true) ->
  reads_only c -> script_post R p anything c.
Proof.
  intros Hp Hc w. destruct (Hc w) as (Hd & reads & Hl & Hr).
  split; [done|]. split; [by rewrite Hd|]. exists reads. split; [done|].
  eapply Forall_impl; [exact Hr|]. done.
Qed.

Lemma post_set_doc (p : Event -> bool) (d : Document) :
  script_post any_doc p anything (set_doc d).
Proof. intros w. split; [done|]. split; [done|]. exists []. by rewrite app_nil_r. Qed.

Lemma collect_inside e : is_collect e = true -> inside e = true.
Proof. by destruct e. Qed.


(** One step of a walk through a script: the structural rules, and the
    branches of a conditional or a match. *)
Ltac post_side :=
  lazymatch goal with
  | |- Reflexive _ => apply _
  | |- Transitive _ => apply _
  | |- _ => intros
  end.

Ltac post_step :=
  first
    [ apply post_ret
    | apply post_emit
    | apply post_get_doc
    | apply post_set_doc
    | apply post_bind
    | match goal with
      | |- script_post _ _ _ (match ?x with _ => _ end) => destruct x
      | |- script_post _ _ _ (let '(_, _) := ?x in _) => destruct x
      | |- script_post _ _ _ (let _ := _ in _) => cbv zeta
      end ];
  post_side.

Ltac post_walk := repeat (post_step; try done).

Lemma post_at {A} (d0 : Document) (R : relation Document) (p : Event -> bool)
    (Q : A -> Prop) (c : Script A) :
  script_post R p Q c -> script_post_at d0 R p Q c.
Proof. intros Hc w <-. apply Hc. Qed.

Lemma post_of_at {A} (R : relation Document) (p : Event -> bool)
    (Q : A -> Prop) (c : Script A) :
  (forall d0, script_post_at d0 R p Q c) -> script_post R p Q c.
Proof. intros Hc w. by apply (Hc (w_doc w)). Qed.

Lemma post_at_bind {A B} (d0 : Document) (R : relation Document) (p : Event -> bool)
    (Q' : A -> Prop) (Q : B -> Prop) (c : Script A) (k : A -> Script B) :
  script_post_at d0 eq p Q' c ->
  (forall a, Q' a -> script_post_at d0 R p Q (k a)) ->
  script_post_at d0 R p Q (c ≫= k).
Proof.
  intros Hc Hk w Hw. rewrite bind_run.
  destruct (Hc w Hw) as (HQ' & Hd1 & r1 & Hl1 & Hr1).
  destruct (Hk (c w).1 HQ' (c w).2 (eq_sym Hd1)) as (HQ & Hd2 & r2 & Hl2 & Hr2).
  split; [done|]. split; [done|]. exists (r1 ++ r2).
  split; [by rewrite Hl2, Hl1, app_assoc|]. by apply Forall_app.
Qed.

Section Walks.
Context `{HostAPI}.
Context (p : Event -> bool).
Hypothesis p_inside :
  forall e, is_bracket e = false -> is_delete e = false -> p e = true.

Ltac walk := repeat (post_step; try done; try (by apply p_inside)).

Lemma post_p_reads {A} (R : relation Document) `{!Reflexive R} (c : Script A) :
  reads_only c -> script_post R p anything c.
Proof.
  apply post_reads; [apply _|]. intros e He. apply p_inside; by destruct e.
Qed.

Lemma post_create_filled_region ft view area loop fallback used could :
  script_post any_doc p anything
    (create_filled_region ft view area loop fallback used could).
Proof. unfold create_filled_region. walk. Qed.

Lemma post_rotate view door :
  script_post any_doc p anything (rotate_view_to_door view door).
Proof. unfold rotate_view_to_door. walk. Qed.

Lemma post_set_crop_shape view area loop :
  script_post any_doc p anything (MultipleUnits.set_crop_shape view area loop).
Proof. unfold MultipleUnits.set_crop_shape. walk. Qed.

Lemma post_place_viewports sheet mv kv ck :
  script_post any_doc p anything (MultipleUnits.place_viewports sheet mv kv ck).
Proof. unfold MultipleUnits.place_viewports. walk. Qed.

Lemma post_create_sheet tb number name :
  script_post any_doc p anything (MultipleUnits.create_sheet tb number name).
Proof. unfold MultipleUnits.create_sheet, MultipleUnits.replace_sheet. walk. Qed.

Lemma post_create_keyplan_view base_view selection area label loop :
  script_post any_doc p anything
    (MultipleUnits.create_keyplan_view base_view selection area label loop).
Proof.
  unfold MultipleUnits.create_keyplan_view. walk.
  all: apply post_create_filled_region.
Qed.

Lemma reports_failed {B} (created : AreaResult -> option B) area r :
  r_area r = area -> r_failed r = true -> created r = None -> r_warnings r <> [] ->
  reports created area r.
Proof. intros. split; [done|]. by left. Qed.

Lemma reports_done {B} (created : AreaResult -> option B) area r :
  r_area r = area -> r_failed r = false -> is_Some (created r) ->
  reports created area r.
Proof. intros. split; [done|]. by right. Qed.

Lemma post_keyplan_area_with base_view template fill area :
  script_post any_doc p (reports r_keyplan_view area)
    (KeyPlan.keyplan_area base_view template fill area).
Proof.
  unfold KeyPlan.keyplan_area. walk.
  all: try (apply reports_failed; done).
  all: try (apply reports_done; [done|done|by eexists]).
  all: apply post_create_filled_region.
Qed.

(** The sheet that the marketing script finds for the area's number. *)
Lemma existing_sheet_at (d0 : Document) (number : string) :
  script_post_at d0 eq p
    (fun r => forall s, r = Some s ->
                number <> "" /\ first_sheet_numbered number d0 = Some s)
    (if decide (number = "") then mret None
     else sheets ← collect_sheets;
          mret (List.find (fun s => bool_decide (SheetNumber s = number)) sheets)).
Proof.
  intros w Hw. destruct (decide (number = "")) as [->|Hne].
  - split; [done|]. split; [done|]. exists []. by rewrite app_nil_r.
  - unfold collect_sheets. rewrite !bind_run. cbn [emit get_doc mret script_ret fst snd w_doc w_log].
    rewrite Hw. split; [by intros s Hs|]. split; [done|].
    exists [Collect ClsViewSheet]. split; [done|]. constructor; [|done].
    by apply p_inside.
Qed.

Lemma post_marketing_area_at base_view selection area (d0 : Document) :
  (forall s,
     let number :=
       str_or (MultipleUnits.get_param_value area
                 (MultipleUnits.selected_sheet_number_param selection))
              (area_Number area) in
     number <> "" -> first_sheet_numbered number d0 = Some s ->
     MultipleUnits.selected_overwrite selection = true ->
     p (DeleteElement (sheet_Id s)) = true) ->
  script_post_at d0 any_doc p (reports r_sheet area)
    (MultipleUnits.marketing_area base_view selection area).
Proof.
  intros Hdel. unfold MultipleUnits.marketing_area.
  eapply post_at_bind;
    [apply post_at, (post_p_reads eq), reads_only_unique_view_name_now|intros view_name _].
  eapply post_at_bind; [apply existing_sheet_at|intros existing Hex].
  apply post_at. walk.
  all: try (apply reports_failed; done).
  all: try (apply reports_done; [done|done|by eexists]).
  all: try (apply post_p_reads; [apply _|apply reads_only_unique_sheet_number]).
  all: try apply post_rotate.
  all: try apply post_set_crop_shape.
  all: try apply post_create_keyplan_view.
  all: try (destruct (Hex _ eq_refl) as [Hne Hfind]; by apply Hdel).
Qed.

End Walks.

Section Areas.
Context `{HostAPI}.

Lemma inside_p e : is_bracket e = false -> is_delete e = false -> inside e = true.
Proof. by destruct e. Qed.

Lemma post_marketing_area base_view selection area :
  script_post any_doc inside (reports r_sheet area)
    (MultipleUnits.marketing_area base_view selection area).
Proof.
  apply post_of_at. intros d0. apply post_marketing_area_at; [apply inside_p|done].
Qed.

Lemma post_keyplan_area base_view template fill area :
  script_post any_doc inside (reports r_keyplan_view area)
    (KeyPlan.keyplan_area base_view template fill area).
Proof. apply post_keyplan_area_with, inside_p. Qed.

End Areas.

Lemma post_bind_with {A B} (R : relation Document) `{!Transitive R} (p : Event -> bool)
    (Q' : A -> Prop) (Q : B -> Prop) (c : Script A) (k : A -> Script B) :
  script_post R p Q' c -> (forall a, Q' a -> script_post R p Q (k a)) ->
  script_post R p Q (c ≫= k).
Proof.
  intros Hc Hk w. rewrite bind_run.
  destruct (Hc w) as (HQ' & Hd1 & r1 & Hl1 & Hr1).
  destruct (Hk (c w).1 HQ' (c w).2) as (HQ & Hd2 & r2 & Hl2 & Hr2).
  split; [done|]. split; [by etrans|]. exists (r1 ++ r2).
  split; [by rewrite Hl2, Hl1, app_assoc|]. by apply Forall_app.
Qed.




Section Mains.
Context `{HostAPI}.












End Mains.

Lemma reports_count {B} (created : AreaResult -> option B) (areas : list Area)
    (results : list AreaResult) :
  Forall2 (reports created) areas results ->
  r_area <$> results = areas /\
  length (filter (fun r => is_Some (created r)) results)
  + length (filter (fun r => r_failed r = true) results) = length areas.
Proof.
  induction 1 as [|area r areas results [Harea Hr] _ [IH1 IH2]]; [done|].
  split; [by rewrite fmap_cons, Harea, IH1|].
  rewrite !filter_cons. simpl length.
  destruct Hr as [(Hf & Hc & _)|(Hf & Hc)].
  - rewrite decide_False by (rewrite Hc; by intros [? ?]).
    rewrite decide_True by done. simpl. lia.
  - rewrite decide_True by done.
    rewrite decide_False by congruence. simpl. lia.
Qed.

Section Report.
Context `{HostAPI}.

(** X16. The loop over the selected areas reports every area once, in the
    order of the selection: the results carry the areas, each result is
    either a created sheet (keyplan view) or a failure, so that the two
    counts of the summary add up to the number of areas; and a failure
    always carries a warning. *)
Theorem every_area_is_reported_once (base_view : View) (areas : list Area) (w : World) :
  (forall selection,
     let results :=
       (for_each (MultipleUnits.marketing_area base_view selection) areas w).1 in
     r_area <$> results = areas /\
     length (filter (fun r => is_Some (r_sheet r)) results)
     + length (filter (fun r => r_failed r = true) results) = length areas /\
     Forall (fun r => r_failed r = true -> r_warnings r <> []) results) /\
  (forall template fill,
     let results :=
       (for_each (KeyPlan.keyplan_area base_view template fill) areas w).1 in
     r_area <$> results = areas /\
     length (filter (fun r => is_Some (r_keyplan_view r)) results)
     + length (filter (fun r => r_failed r = true) results) = length areas /\
     Forall (fun r => r_failed r = true -> r_warnings r <> []) results).
Proof.
  assert (Hwarn : forall B (created : AreaResult -> option B) areas results,
            Forall2 (reports created) areas results ->
            Forall (fun r => r_failed r = true -> r_warnings r <> []) results).
  { intros B created l results. induction 1 as [|a r l' rs [_ Hr] _ IH]; constructor; [|done].
    destruct Hr as [(_ & _ & ?)|(Hf & _)]; [done|]. rewrite Hf. done. }
  split.
  - intros selection results.
    destruct (post_for_each any_doc inside (reports r_sheet) _ areas
                (post_marketing_area base_view selection) w) as (HQ & _).
    destruct (reports_count _ _ _ HQ). eauto.
  - intros template fill results.
    destruct (post_for_each any_doc inside (reports r_keyplan_view) _ areas
                (post_keyplan_area base_view template fill) w) as (HQ & _).
    destruct (reports_count _ _ _ HQ). eauto.
Qed.

End Report.


Section Deletes.
Context `{HostAPI}.

Lemma may_delete_inside overwrite number d e :
  is_bracket e = false -> is_delete e = false -> may_delete overwrite number d e = true.
Proof. by destruct e. Qed.

Lemma never_deletes_inside e :
  is_bracket e = false -> is_delete e = false -> never_deletes e = true.
Proof. by destruct e. Qed.

(** X17. For one area the marketing script deletes nothing unless the overwrite
    option is on and the area has a sheet number; what it deletes then is
    the first sheet of the document that carried this number when the
    area's turn began.  The keyplan script never deletes anything. *)
Theorem deletes_only_an_overwritten_sheet (base_view : View) (area : Area) (w : World) :
  (forall selection,
     let number :=
       str_or (MultipleUnits.get_param_value area
                 (MultipleUnits.selected_sheet_number_param selection))
              (area_Number area) in
     exists events,
       w_log (MultipleUnits.marketing_area base_view selection area w).2
       = w_log w ++ events /\
       forall id, DeleteElement id ∈ events ->
         MultipleUnits.selected_overwrite selection = true /\ number <> "" /\
         exists s, first_sheet_numbered number (w_doc w) = Some s /\ sheet_Id s = id) /\
  (forall template fill,
     exists events,
       w_log (KeyPlan.keyplan_area base_view template fill area w).2 = w_log w ++ events /\
       forall id, DeleteElement id ∉ events).
Proof.
  split.
  - intros selection number.
    destruct (post_marketing_area_at
                (may_delete (MultipleUnits.selected_overwrite selection) number (w_doc w))
                (may_delete_inside _ _ _) base_view selection area (w_doc w))
      with (w := w) as (_ & _ & events & Hlog & Hev); [|done|].
    { intros s number' Hne Hfind Hover. subst number' number. cbn [may_delete].
      rewrite Hover, Hfind. cbn [fmap option_fmap option_map andb].
      rewrite !bool_decide_eq_true_2; done. }
    exists events. split; [done|]. intros id Hin.
    rewrite Forall_forall in Hev. specialize (Hev _ Hin). cbn [may_delete] in Hev.
    apply andb_prop in Hev as [Hev Hfind]. apply andb_prop in Hev as [Hover Hne].
    apply bool_decide_eq_true_1 in Hfind, Hne.
    split; [done|]. split; [done|].
    destruct (first_sheet_numbered number (w_doc w)) as [s|]; [|done].
    exists s. split; [done|]. by injection Hfind.
  - intros template fill.
    destruct (post_keyplan_area_with never_deletes never_deletes_inside
                base_view template fill area w) as (_ & _ & events & Hlog & Hev).
    exists events. split; [done|]. intros id Hin.
    rewrite Forall_forall in Hev. by specialize (Hev _ Hin).
Qed.

End Deletes.

Section AddsOne.
Context `{HostAPI}.

Lemma fmap_rename_fresh (views : list View) (id : Z) (name : string) :
  id ∉ view_Id <$> views ->
  (fun x => if decide (view_Id x = id) then with_view_name x name else x) <$> views
  = views.
Proof.
  induction views as [|v views IH]; [done|]. rewrite fmap_cons, not_elem_of_cons.
  intros [Hne Hnin]. rewrite fmap_cons, IH by done.
  by rewrite decide_False.
Qed.

Lemma create_filled_region_doc ft view area loop fallback used could w :
  w_doc (create_filled_region ft view area loop fallback used could w).2 = w_doc w.
Proof.
  unfold create_filled_region.
  destruct (FilledRegion_accepts loop); [done|].
  destruct (match fallback with Some _ => fallback | None => _ end) as [rect|]; [|done].
  by destruct (FilledRegion_accepts rect).
Qed.

Lemma duplicate_view_result (v : View) (w : World) :
  (duplicate_view v w).1 = Duplicate (w_doc w) v.
Proof. reflexivity. Qed.

(** What [duplicate_view], a fresh name and [assign_view_name] leave in
    the document when the host gives the copy an id that no view has. *)
Lemma named_copy_run (base_view : View) (base_name : string) (w : World) :
  let copy := Duplicate (w_doc w) base_view in
  view_Id copy ∉ view_Id <$> doc_views (w_doc w) ->
  let w1 := (duplicate_view base_view w).2 in
  let name := (unique_view_name_now base_name w1).1 in
  let w2 := (unique_view_name_now base_name w1).2 in
  let run := assign_view_name copy name w2 in
  run.1 = with_view_name copy name /\
  doc_views (w_doc run.2) = doc_views (w_doc w) ++ [with_view_name copy name] /\
  doc_sheets (w_doc run.2) = doc_sheets (w_doc w) /\
  (name ∉ view_Name <$> doc_views (w_doc w)).
Proof.
  intros copy Hfresh w1 name w2 run.
  assert (Hw1 : w_doc w1 = mkDocument (ActiveView (w_doc w))
                             (doc_views (w_doc w) ++ [copy]) (doc_sheets (w_doc w))
                             (doc_titleblock_types (w_doc w)) (doc_fill_types (w_doc w)))
    by reflexivity.
  destruct (reads_only_unique_view_name_now base_name w1) as (Hw2 & _).
  fold w2 in Hw2.
  destruct (unique_view_name_now_fresh base_name w1) as [Hname _]. fold name in Hname.
  unfold existing_views, view_names in Hname. rewrite Hw1 in Hname. cbn [doc_views] in Hname.
  rewrite elem_of_list_to_set, fmap_app, elem_of_app in Hname.
  split; [done|].
  assert (Hrun : w_doc run.2 = mkDocument (ActiveView (w_doc w2))
            ((fun x => if decide (view_Id x = view_Id copy)
                       then with_view_name x name else x) <$> doc_views (w_doc w2))
            (doc_sheets (w_doc w2)) (doc_titleblock_types (w_doc w2))
            (doc_fill_types (w_doc w2))) by reflexivity.
  rewrite Hrun, Hw2, Hw1. cbn [doc_views doc_sheets].
  split; [|split; [done|tauto]].
  rewrite fmap_app, fmap_rename_fresh by done. cbn [fmap list_fmap].
  by rewrite decide_True.
Qed.

(** X18. When the host gives the duplicated view an id that no view of the
    document has, [keyplan_area] leaves the views it found as they were
    and adds exactly one, the keyplan view it reports, under a name that
    no view had before; a failed area leaves the world untouched.  The
    sheets stay as they were. *)
Theorem keyplan_area_adds_one_view (base_view template : View)
    (fill : FilledRegionType) (area : Area) (w : World) :
  view_Id (Duplicate (w_doc w) base_view) ∉ view_Id <$> doc_views (w_doc w) ->
  let run := KeyPlan.keyplan_area base_view template fill area w in
  match r_keyplan_view run.1 with
  | Some v =>
      doc_views (w_doc run.2) = doc_views (w_doc w) ++ [v] /\
      view_Id v = view_Id (Duplicate (w_doc w) base_view) /\
      (view_Name v ∉ view_Name <$> doc_views (w_doc w))
  | None => r_failed run.1 = true /\ run.2 = w
  end /\
  doc_sheets (w_doc run.2) = doc_sheets (w_doc w).
Proof.
  intros Hfresh. unfold KeyPlan.keyplan_area.
  destruct (match get_outer_boundary_loop area with
            | Some _ => get_outer_boundary_loop area
            | None => _
            end) as [loop|] eqn:Eloop; [|done].
  set (label := "Keyplan - " +:+ _).
  destruct (named_copy_run base_view label w Hfresh) as (Hv & Hviews & Hsheets & Hname).
  cbv zeta in *.
  rewrite !bind_run. cbn [emit fst snd mret script_ret r_keyplan_view w_doc].
  rewrite create_filled_region_doc. cbn [w_doc].
  rewrite !duplicate_view_result, Hv. cbn [view_Id view_Name with_view_name]. done.
Qed.

End AddsOne.

Section AddsOneSheet.
Context `{HostAPI}.

Lemma fmap_replace_fresh (sheets : list ViewSheet) (id : Z) (s : ViewSheet) :
  id ∉ sheet_Id <$> sheets ->
  (fun x => if decide (sheet_Id x = id) then s else x) <$> sheets = sheets.
Proof.
  induction sheets as [|v sheets IH]; [done|]. rewrite fmap_cons, not_elem_of_cons.
  intros [Hne Hnin]. rewrite fmap_cons, IH by done.
  by rewrite decide_False.
Qed.

Lemma replace_last_fresh (sheets : list ViewSheet) (id : Z) (s0 s : ViewSheet) :
  sheet_Id s0 = id ->
  id ∉ sheet_Id <$> sheets ->
  (fun x => if decide (sheet_Id x = id) then s else x) <$> (sheets ++ [s0])
  = sheets ++ [s].
Proof.
  intros Hid Hfresh. rewrite fmap_app, fmap_replace_fresh by done.
  cbn [fmap list_fmap]. by rewrite decide_True.
Qed.

(** X19. When the host gives the new sheet an id that no sheet of the document
    has, creating the sheet leaves the sheets it found as they were and
    adds exactly one, the sheet that is returned.  That sheet carries the
    requested number and name, except where the request was empty or the
    host refused it, which is then among the warnings. *)
Theorem create_sheet_adds_one_sheet (titleblock_type : TitleBlockType)
    (sheet_number sheet_name : string) (w : World) :
  let created := ViewSheet_Create (w_doc w) titleblock_type in
  sheet_Id created ∉ sheet_Id <$> doc_sheets (w_doc w) ->
  let run := MultipleUnits.create_sheet titleblock_type sheet_number sheet_name w in
  let sheet := run.1.1 in
  doc_sheets (w_doc run.2) = doc_sheets (w_doc w) ++ [sheet] /\
  doc_views (w_doc run.2) = doc_views (w_doc w) /\
  sheet_Id sheet = sheet_Id created /\
  (SheetNumber sheet = sheet_number \/
   SheetNumber sheet = SheetNumber created /\
   (sheet_number = "" \/
    "Sheet number '" +:+ sheet_number +:+ "' could not be set." ∈ run.1.2)) /\
  (sheet_Name sheet = sheet_name \/
   sheet_Name sheet = sheet_Name created /\
   (sheet_name = "" \/
    "Sheet name '" +:+ sheet_name +:+ "' could not be set." ∈ run.1.2)).
Proof.
  intros created Hfresh. unfold MultipleUnits.create_sheet, MultipleUnits.replace_sheet.
  assert (Hmsg : forall (x : string) (l : list string), x ∈ l ++ [x]) by set_solver.
  assert (Hmsg' : forall (x y : string), x ∈ [x] ++ [y]) by set_solver.
  assert (Hmsg'' : forall (x : string), x ∈ [x] ++ []) by set_solver.
  destruct (decide (sheet_number = "")) as [->|Hnum];
    destruct (decide (sheet_name = "")) as [->|Hname];
    cbv [mbind script_bind get_doc emit update_sheets set_doc mret script_ret];
    cbn [fst snd w_doc w_log doc_sheets doc_views]; fold created;
    repeat match goal with
      | |- context [SheetNumber_accepts ?d ?n] => destruct (SheetNumber_accepts d n)
      | |- context [SheetName_accepts ?d ?n] => destruct (SheetName_accepts d n)
      end;
    cbn [fst snd w_doc w_log doc_sheets doc_views sheet_Id SheetNumber sheet_Name
         MultipleUnits.with_sheet_number MultipleUnits.with_sheet_name];
    rewrite ?(replace_last_fresh _ (sheet_Id created)) by done;
    cbn [fst snd w_doc w_log doc_sheets doc_views sheet_Id SheetNumber sheet_Name
         MultipleUnits.with_sheet_number MultipleUnits.with_sheet_name];
    rewrite ?(replace_last_fresh _ (sheet_Id created)) by done;
    repeat split; auto 6.
Qed.

End AddsOneSheet.

Lemma keyplan_area_adds_one_view_witness :
  doc_sheets (w_doc (KeyPlan.keyplan_area sample_view template_view sample_fill_type
                       sample_area full_world).2) = doc_sheets full_document.
Proof.
  apply (keyplan_area_adds_one_view sample_view template_view sample_fill_type
           sample_area full_world).
  apply (bool_decide_unpack _). vm_compute. exact I.
Defined.

Lemma create_sheet_adds_one_sheet_witness :
  let run := MultipleUnits.create_sheet sample_titleblock "101" "Suite 101" full_world in
  doc_sheets (w_doc run.2) = doc_sheets full_document ++ [run.1.1].
Proof.
  apply (create_sheet_adds_one_sheet sample_titleblock "101" "Suite 101" full_world).
  apply (bool_decide_unpack _). vm_compute. exact I.
Defined.


Example deletes_the_numbered_sheet :
  let w := mkWorld (mkDocument (view_with_doors [entry_door_here])
                      [view_with_doors [entry_door_here]; template_view]
                      [numbered_sheet "101"] [sample_titleblock] [sample_fill_type]) [] in
  let overwrite :=
    MultipleUnits.mkSelection None None template_view None None sample_titleblock
                              true false in
  DeleteElement 13
    ∈ w_log (MultipleUnits.marketing_area (view_with_doors [entry_door_here])
               overwrite sample_area w).2 /\
  SheetNumber <$> doc_sheets (w_doc (MultipleUnits.marketing_area
                   (view_with_doors [entry_door_here]) overwrite sample_area w).2)
  = ["101"].
Proof.
  split; [|reflexivity]. vm_compute.
  do 2 apply list_elem_of_further. apply list_elem_of_here.
Qed.

(** *** The names of the created views *)


Ltac post_return := apply post_ret; try apply _; cbv beta.

Section Naming.
Context `{HostAPI}.

Lemma unique_view_name_now_named (base : string) (w : World) :
  named_after base (unique_view_name_now base w).1.
Proof.
  destruct (unique_view_name_spec w base) as (r & Hr & _ & Hform).
  destruct (unique_view_name_now_fresh base w) as [_ Hnow].
  specialize (Hr (S (size (existing_views w))) ltac:(lia)).
  specialize (Hnow (S (size (existing_views w))) ltac:(lia)).
  rewrite Hr in Hnow. injection Hnow as <-.
  destruct Hform as [?|(i & Hi & Hri & _)]; [by left|right; by exists i].
Qed.

Lemma post_unique_view_name_now (base : string) :
  script_post any_doc any_event (named_after base) (unique_view_name_now base).
Proof.
  intros w. split; [apply unique_view_name_now_named|].
  destruct (post_reads any_doc any_event (unique_view_name_now base)
              ltac:(done) (reads_only_unique_view_name_now base) w) as (_ & ? & ?).
  done.
Qed.

Lemma post_assign_view_name_named (v : View) (name : string) :
  script_post any_doc any_event (fun v' => view_Name v' = name) (assign_view_name v name).
Proof. unfold assign_view_name. post_walk. Qed.

Lemma any_event_inside e : is_bracket e = false -> is_delete e = false -> any_event e = true.
Proof. done. Qed.

Lemma post_keyplan_view_named base_view selection area label loop :
  script_post any_doc any_event
    (fun r => forall kv, r.1 = Some kv -> named_after ("Keyplan - " +:+ label) (view_Name kv))
    (MultipleUnits.create_keyplan_view base_view selection area label loop).
Proof.
  unfold MultipleUnits.create_keyplan_view.
  destruct (MultipleUnits.selected_create_keyplan selection); [|by apply post_ret].
  destruct (MultipleUnits.selected_keyplan_template selection) as [kt|]; [|by apply post_ret].
  destruct (MultipleUnits.selected_fill_type selection) as [ft|]; [|by apply post_ret].
  (apply post_bind; try apply _); [post_walk|intros copy].
  (eapply post_bind_with; try apply _); [apply post_unique_view_name_now|intros name Hname].
  (eapply post_bind_with; try apply _); [apply post_assign_view_name_named|intros kv Hkv].
  post_walk.
  - apply post_create_filled_region, any_event_inside.
  - match goal with Hx : (_, _).1 = Some _ |- _ => cbn [fst] in Hx; injection Hx as <- end. by rewrite Hkv.
Qed.

(** X20. The sheet name the marketing script works with is never empty: it
    falls back to the area name and then to [Marketing Sheet].  So the
    label of the views is always this sheet name: the marketing view is
    named after [Marketing - <sheet name>], or after that with [ - copy]
    appended, and the keyplan view after [Keyplan - <sheet name>], each
    possibly with a counter. *)
Theorem marketing_names_follow_the_sheet_name (base_view : View)
    (selection : MultipleUnits.Selection) (area : Area) (w : World) :
  let sheet_name :=
    str_or (MultipleUnits.get_param_value area
              (MultipleUnits.selected_sheet_name_param selection))
           (str_or (area_Name area) "Marketing Sheet") in
  let result := (MultipleUnits.marketing_area base_view selection area w).1 in
  sheet_name <> "" /\
  (forall v, r_marketing_view result = Some v ->
     named_after ("Marketing - " +:+ sheet_name) (view_Name v) \/
     named_after (("Marketing - " +:+ sheet_name) +:+ " - copy") (view_Name v)) /\
  (forall kv, r_keyplan_view result = Some kv ->
     named_after ("Keyplan - " +:+ sheet_name) (view_Name kv)).
Proof.
  intros sheet_name result.
  assert (Hne : sheet_name <> "").
  { unfold sheet_name, str_or. repeat case_decide; done. }
  split; [done|].
  assert (Hlabel : str_or sheet_name
                     (str_or (area_Name area) (str_or (area_Number area) "Marketing"))
                   = sheet_name).
  { unfold str_or at 1. by rewrite decide_False. }
  cut (script_post any_doc any_event
         (fun r =>
            (forall v, r_marketing_view r = Some v ->
               named_after ("Marketing - " +:+ sheet_name) (view_Name v) \/
               named_after (("Marketing - " +:+ sheet_name) +:+ " - copy") (view_Name v)) /\
            (forall kv, r_keyplan_view r = Some kv ->
               named_after ("Keyplan - " +:+ sheet_name) (view_Name kv)))
         (MultipleUnits.marketing_area base_view selection area)).
  { intros Hpost. destruct (Hpost w) as (HQ & _). exact HQ. }
  unfold MultipleUnits.marketing_area. fold sheet_name. rewrite Hlabel.
  (eapply post_bind_with; try apply _); [apply post_unique_view_name_now|intros view_name Hvn].
  (apply post_bind; try apply _); [|intros existing].
  { post_walk. }
  eapply (post_bind_with any_doc any_event
            (fun names : string * string =>
               named_after ("Marketing - " +:+ sheet_name) names.2 \/
               named_after (("Marketing - " +:+ sheet_name) +:+ " - copy") names.2)).
  { destruct existing as [s|]; [|post_return; cbn [snd]; by left].
    destruct (MultipleUnits.selected_overwrite selection); [post_return; cbn [snd]; by left|].
    (apply post_bind; try apply _); [|intros number].
    { apply post_p_reads; [apply any_event_inside|apply _|].
      apply reads_only_unique_sheet_number_now. }
    (eapply post_bind_with; try apply _); [apply post_unique_view_name_now|intros name Hname].
    post_return. cbn [snd]. by right. }
  intros [number name] Hname. cbn [snd] in Hname.
  destruct (get_outer_boundary_loop area) as [loop|]; [|by apply post_ret].
  (apply post_bind; try apply _); [post_walk|intros _].
  (apply post_bind; try apply _); [post_walk|intros copy].
  (eapply post_bind_with; try apply _); [apply post_assign_view_name_named|intros mv Hmv].
  (apply post_bind; try apply _); [by apply post_emit|intros _].
  (apply post_bind; try apply _); [by apply post_emit|intros _].
  (apply post_bind; try apply _); [by apply post_emit|intros _].
  (apply post_bind; try apply _); [by apply post_emit|intros _].
  (apply post_bind; try apply _); [|intros [rotated rotate_msg]].
  { destruct (find_entry_door_in_area _ _); [apply post_rotate, any_event_inside|by apply post_ret]. }
  (apply post_bind; try apply _); [apply post_set_crop_shape, any_event_inside|intros crop_errors].
  (eapply post_bind_with; try apply _); [apply post_keyplan_view_named|intros [kv fill_errors] Hkv].
  (apply post_bind; try apply _); [apply post_create_sheet, any_event_inside|intros [sheet sheet_errors]].
  (apply post_bind; try apply _); [apply post_place_viewports, any_event_inside|intros _].
  post_return. cbn [r_marketing_view r_keyplan_view]. split.
  - intros v [= <-]. rewrite Hmv.
    exact Hname.
  - intros kv' ->. by apply Hkv.
Qed.

End Naming.

(** ** Further properties of the door search *)


Section DoorsMore.
Context `{HostAPI}.

Lemma door_points_base (door : Door) :
  _door_points_for_check door
  = match door_Location door with
    | LocationRaises => []
    | _ =>
        if IsZeroLength (FacingOrientation door) then door_base_points door
        else
          let offset := Multiply (Normalize (FacingOrientation door)) 1 in
          let points := door_base_points door in
          let points := points ++ ((fun pt => XYZ_add pt offset) <$> points) in
          points ++ ((fun pt => XYZ_sub pt offset) <$> points)
    end.
Proof.
  unfold _door_points_for_check, door_base_points.
  by destruct (door_Location door) as [p|[[[e0 e1] mid]|]| |].
Qed.

Lemma door_points_located (door : Door) :
  door_Location door <> LocationRaises ->
  _door_points_for_check door
  = if IsZeroLength (FacingOrientation door) then door_base_points door
    else
      let offset := Multiply (Normalize (FacingOrientation door)) 1 in
      let points := door_base_points door in
      let points := points ++ ((fun pt => XYZ_add pt offset) <$> points) in
      points ++ ((fun pt => XYZ_sub pt offset) <$> points).
Proof. intros Hloc. rewrite door_points_base. by destruct (door_Location door). Qed.

Lemma location_point_is_base (door : Door) (p : XYZ) :
  _door_location_point door = Some p ->
  p ∈ door_base_points door /\ door_Location door <> LocationRaises.
Proof.
  unfold _door_location_point, door_base_points.
  destruct (door_Location door) as [q|[[[e0 e1] mid]|]| |]; intros [= <-]; split; try done;
    set_solver.
Qed.

(** X21. The points at which a door is tested against an area: the door's
    location point is always one of them, so a door whose location point
    lies in the area counts as inside.  Every sample is a location point,
    or one moved one facing unit forward or backward; because the second
    extension runs over the list that the first has already extended, the
    unmoved points come back a second time, moved forward and backward
    again, and a door with a facing direction has four samples for every
    location point. *)
Theorem door_sample_points (door : Door) :
  let offset := Multiply (Normalize (FacingOrientation door)) 1 in
  let samples := _door_points_for_check door in
  (forall p, _door_location_point door = Some p -> p ∈ samples) /\
  (forall area p, _door_location_point door = Some p ->
     IsPointInArea area p = Some true -> door_in_area area door = true) /\
  (forall pt, pt ∈ samples ->
     exists base, base ∈ door_base_points door /\
       (pt = base \/ pt = XYZ_add base offset \/ pt = XYZ_sub base offset \/
        pt = XYZ_sub (XYZ_add base offset) offset)) /\
  (door_Location door <> LocationRaises ->
   length samples
   = if IsZeroLength (FacingOrientation door) then length (door_base_points door)
     else 4 * length (door_base_points door)).
Proof.
  intros offset samples.
  assert (Hin : forall p, _door_location_point door = Some p -> p ∈ samples).
  { intros p Hp. destruct (location_point_is_base door p Hp) as [Hbase Hloc].
    unfold samples. rewrite door_points_located by done.
    destruct (IsZeroLength _); [done|]. cbv zeta. rewrite !elem_of_app. by left; left. }
  split; [done|]. split; [|split].
  - intros area p Hp Harea. apply door_in_area_points. exists p. split; [by apply Hin|done].
  - intros pt Hpt.
    assert (Hloc : door_Location door <> LocationRaises).
    { intros E. unfold samples in Hpt. rewrite door_points_base, E in Hpt.
      by apply elem_of_nil in Hpt. }
    unfold samples in Hpt. rewrite door_points_located in Hpt by done.
    destruct (IsZeroLength _); [exists pt; by auto|].
    cbv zeta in Hpt. fold offset in Hpt.
    rewrite fmap_app, !elem_of_app, !list_elem_of_fmap in Hpt.
    destruct Hpt
      as [[Hb|(b & -> & Hb)]|[(b & -> & Hb)|(b' & -> & (b & -> & Hb)%list_elem_of_fmap)]];
      eauto 8.
  - intros Hloc. unfold samples. rewrite door_points_located by done.
    destruct (IsZeroLength _); [done|].
    cbv zeta. rewrite !length_app, !length_fmap, length_app, length_fmap. lia.
Qed.

(** X22. Whatever [find_entry_door_in_area] returns is a door of the view whose
    names contain [entry]; it has a sample point inside the area, or no
    entry door of the view has one and the area has a centroid.  Without
    an area nothing is returned. *)
Theorem entry_door_result_is_entry_door (area : option Area) (view : View) (d : Door) :
  find_entry_door_in_area area view = Some d ->
  d ∈ default [] (view_doors view) /\ _door_name_matches d = true /\
  exists a, area = Some a /\
    (door_in_area a d = true \/
     (forall d', d' ∈ default [] (view_doors view) -> _door_name_matches d' = true ->
        door_in_area a d' = false) /\
     is_Some (_area_centroid a)).
Proof.
  unfold find_entry_door_in_area. destruct area as [a|]; [|done].
  cbv zeta. set (doors := default [] (view_doors view)).
  destruct (filter (fun door => _door_name_matches door && door_in_area a door) doors)
    as [|m ms] eqn:Hmatches.
  - destruct (_area_centroid a) as [centroid|] eqn:Hc; [|done].
    intros Hhead.
    pose proof (head_sort_by_min key_leb (distance_key centroid) key_leb_total key_leb_trans
                  (filter (fun d => _door_name_matches d) doors)) as Hmin.
    rewrite Hhead in Hmin. destruct Hmin as [Hd _].
    apply list_elem_of_filter in Hd as [Hname Hd].
    apply Is_true_true in Hname.
    split; [done|]. split; [done|]. exists a. split; [done|]. right. split; [|by eexists].
    intros d' Hd' Hname'. destruct (door_in_area a d') eqn:Hin; [|done].
    assert (d' ∈ filter (fun door => _door_name_matches door && door_in_area a door) doors).
    { apply list_elem_of_filter. split; [|done]. by rewrite Hname', Hin. }
    rewrite Hmatches in *. by apply elem_of_nil in H0.
  - intros Hhead.
    pose proof (head_sort_by_min Z.leb door_Id Zleb_total Zleb_trans (m :: ms)) as Hmin.
    rewrite Hhead in Hmin. destruct Hmin as [Hd _].
    rewrite <- Hmatches in Hd. apply list_elem_of_filter in Hd as [Hboth Hd].
    apply Is_true_true, andb_prop in Hboth as [Hname Hin].
    split; [done|]. split; [done|]. exists a. split; [done|]. by left.
Qed.

End DoorsMore.

Lemma entry_door_result_is_entry_door_witness :
  _door_name_matches entry_door_here = true.
Proof.
  apply (entry_door_result_is_entry_door (Some sample_area)
           (view_with_doors [closet_door; entry_door_far; entry_door_here])
           entry_door_here).
  reflexivity.
Defined.

(** ** The forms *)


Module FormsFacts.
Import Forms.

Section Choices.
Context {A : Type} (Id : A -> Z).

Lemma load_choices_range (items : list A) (index : Z) :
  items <> [] ->
  (0 <= load_choices items index < Z.of_nat (length items))%Z.
Proof.
  intros Hne. unfold load_choices. destruct items as [|x items]; [done|].
  set (n := Z.of_nat (length (x :: items))).
  assert (0 < n)%Z by (unfold n; simpl length; lia).
  destruct (Z.leb_spec 0 index); destruct (Z.ltb_spec index n); cbn [andb]; lia.
Qed.

Lemma load_choices_keeps (items : list A) (index : nat) :
  index < length items -> load_choices items (Z.of_nat index) = Z.of_nat index.
Proof.
  intros Hlt. unfold load_choices. destruct items as [|x items]; [simpl in Hlt; lia|].
  rewrite (proj2 (Z.leb_le _ _)) by lia.
  by rewrite (proj2 (Z.ltb_lt _ _)) by lia.
Qed.

Lemma remembered_index_found (items : list A) (i : nat) (item : A) :
  NoDup (Id <$> items) -> items !! i = Some item -> Id item <> 0%Z ->
  remembered_index Id items (Some (Id item)) = Z.of_nat i.
Proof.
  intros Hnd Hi Hid. unfold remembered_index. rewrite decide_False by done.
  destruct (list_find (fun x => Id x = Id item) items) as [[j y]|] eqn:Hfind.
  - apply list_find_Some in Hfind as (Hj & Hy & _).
    f_equal. eapply NoDup_lookup; [exact Hnd| |].
    + rewrite list_lookup_fmap, Hj. simpl. by rewrite Hy.
    + by rewrite list_lookup_fmap, Hi.
  - apply list_find_None in Hfind. rewrite Forall_forall in Hfind.
    exfalso. apply (Hfind item); [|done]. by apply (list_elem_of_lookup_2 _ i).
Qed.

(** X23. What a run remembers is what the next run offers: when the items
    have distinct ids, the id saved for a confirmed item is found again at
    the item's index, and the form loads with that item selected.
    Whatever is remembered, a form over a list that is not empty loads
    with one of its items selected, and loading again with the selected
    index selects the same item. *)
Theorem remembered_choice_is_selected (items : list A) (i : nat) (item : A) :
  NoDup (Id <$> items) -> items !! i = Some item -> Id item <> 0%Z ->
  item_at items (load_choices items (remembered_index Id items (Some (Id item))))
  = Some item /\
  (forall last_id, is_Some (item_at items (load_choices items
                                             (remembered_index Id items last_id)))) /\
  (forall index, (0 <= index)%Z ->
     load_choices items (load_choices items index) = load_choices items index).
Proof.
  intros Hnd Hi Hid.
  assert (Hlen : i < length items) by by eapply lookup_lt_Some.
  assert (Hne : items <> []) by (intros ->; simpl in Hlen; lia).
  split; [|split].
  - rewrite (remembered_index_found items i item) by done.
    rewrite load_choices_keeps by done.
    unfold item_at. by rewrite Nat2Z.id.
  - intros last_id. unfold item_at. apply lookup_lt_is_Some.
    pose proof (load_choices_range items (remembered_index Id items last_id) Hne). lia.
  - intros index Hindex.
    pose proof (load_choices_range items index Hne) as Hr.
    rewrite <- (Z2Nat.id (load_choices items index)) at 1 by lia.
    rewrite load_choices_keeps by lia. rewrite Z2Nat.id by lia. done.
Qed.

End Choices.

Lemma item_at_elem {A} (items : list A) (index : Z) (item : A) :
  item_at items index = Some item -> item ∈ items.
Proof. unfold item_at. apply list_elem_of_lookup_2. Qed.

Section Create.
Context `{HostAPI}.

Lemma keyplan_view_created base_view selection area label loop kt ft w :
  MultipleUnits.selected_create_keyplan selection = true ->
  MultipleUnits.selected_keyplan_template selection = Some kt ->
  MultipleUnits.selected_fill_type selection = Some ft ->
  is_Some (MultipleUnits.create_keyplan_view base_view selection area label loop w).1.1.
Proof.
  intros Hck Hkt Hft. unfold MultipleUnits.create_keyplan_view.
  rewrite Hck, Hkt, Hft. rewrite !bind_run. cbn [mret script_ret fst]. by eexists.
Qed.

(** X24. A form confirms only with at least one area, and what it hands over
    are items of its lists.  A confirmed marketing selection that asks for
    keyplans holds a keyplan template and a filled region type, so that
    [main] creates a keyplan view for every area it draws. *)
Theorem confirmed_selection_is_complete :
  (forall form selection,
     marketing_on_create form = Confirmed selection ->
     (is_Some (mf_selected_area form) \/ mf_areas form <> []) /\
     MultipleUnits.selected_template selection ∈ mf_templates form /\
     MultipleUnits.selected_titleblock selection ∈ mf_titleblocks form /\
     MultipleUnits.selected_overwrite selection = mf_overwrite_checked form /\
     MultipleUnits.selected_create_keyplan selection = mf_keyplan_checked form /\
     (mf_keyplan_checked form = true ->
      (exists kt ft,
         MultipleUnits.selected_keyplan_template selection = Some kt /\
         kt ∈ mf_keyplan_templates form /\
         MultipleUnits.selected_fill_type selection = Some ft /\
         ft ∈ mf_fill_types form) /\
      forall base_view area label loop w,
        is_Some (MultipleUnits.create_keyplan_view base_view selection area label
                   loop w).1.1)) /\
  (forall form template fill,
     keyplan_on_create form = Confirmed (template, fill) ->
     kf_areas form <> [] /\ template ∈ kf_templates form /\ fill ∈ kf_fill_types form).
Proof.
  split.
  - intros form selection. unfold marketing_on_create.
    destruct (bool_decide (mf_selected_area form = None) && _) eqn:Hareas; [done|].
    destruct (_ || _); [done|].
    destruct (mf_template_index form <? 0)%Z; [done|].
    destruct (mf_titleblock_index form <? 0)%Z; [done|].
    destruct (mf_keyplan_checked form && (mf_keyplan_template_index form <? 0)%Z); [done|].
    destruct (mf_keyplan_checked form && (mf_fill_index form <? 0)%Z); [done|].
    cbv zeta.
    destruct (item_at (mf_templates form) _) as [t|] eqn:Et; [|done].
    destruct (mf_keyplan_checked form) eqn:Hck.
    + destruct (item_at (mf_keyplan_templates form) _) as [kt|] eqn:Ekt; [|done].
      destruct (item_at (mf_fill_types form) _) as [ft|] eqn:Eft; [|done].
      destruct (item_at (mf_titleblocks form) _) as [tb|] eqn:Etb; [|done].
      intros [= <-].
      cbn [MultipleUnits.selected_template MultipleUnits.selected_titleblock
           MultipleUnits.selected_overwrite MultipleUnits.selected_create_keyplan
           MultipleUnits.selected_keyplan_template MultipleUnits.selected_fill_type].
      split.
      { apply andb_false_iff in Hareas as [Ha|Ha]; apply bool_decide_eq_false in Ha.
        - left. by destruct (mf_selected_area form); [eexists|].
        - by right. }
      split; [by eapply item_at_elem|]. split; [by eapply item_at_elem|].
      split; [done|]. split; [done|]. intros _. split.
      * exists kt, ft. split; [done|]. split; [by eapply item_at_elem|]. split; [done|]. by eapply item_at_elem.
      * intros. by eapply (keyplan_view_created _ _ _ _ _ kt ft).
    + destruct (item_at (mf_titleblocks form) _) as [tb|] eqn:Etb; [|done].
      intros [= <-].
      cbn [MultipleUnits.selected_template MultipleUnits.selected_titleblock
           MultipleUnits.selected_overwrite MultipleUnits.selected_create_keyplan
           MultipleUnits.selected_keyplan_template MultipleUnits.selected_fill_type].
      split.
      { apply andb_false_iff in Hareas as [Ha|Ha]; apply bool_decide_eq_false in Ha.
        - left. by destruct (mf_selected_area form); [eexists|].
        - by right. }
      split; [by eapply item_at_elem|]. split; [by eapply item_at_elem|]. done.
  - intros form template fill. unfold keyplan_on_create.
    destruct (kf_areas form) as [|a l]; [done|].
    destruct (kf_template_index form <? 0)%Z; [done|].
    destruct (kf_fill_index form <? 0)%Z; [done|].
    destruct (item_at (kf_templates form) _) as [t|] eqn:Et; [|done].
    destruct (item_at (kf_fill_types form) _) as [f|] eqn:Ef; [|done].
    intros [= <- <-]. eauto using item_at_elem.
Qed.

End Create.

Lemma remembered_choice_is_selected_witness :
  item_at [sample_view; template_view]
    (load_choices [sample_view; template_view]
       (remembered_index view_Id [sample_view; template_view] (Some 11%Z)))
  = Some template_view.
Proof.
  apply (remembered_choice_is_selected view_Id [sample_view; template_view] 1 template_view).
  - apply (bool_decide_unpack _). by vm_compute.
  - reflexivity.
  - discriminate.
Defined.

Example keyplan_form_confirms_remembered :
  keyplan_on_create
    (keyplan_form [sample_view; template_view] [sample_fill_type] [sample_area]
       (remembered_index view_Id [sample_view; template_view] (Some 11%Z))
       (remembered_index ft_Id [sample_fill_type] None))
  = Confirmed (template_view, sample_fill_type).
Proof. reflexivity. Qed.

End FormsFacts.

(** ** Picking elements *)


Module PickingFacts.
Import Picking.

Lemma omap_expected_sublist (bic_id : Z) (refs : list (option PickedElement)) :
  omap (expected bic_id) refs `sublist_of` omap id refs.
Proof.
  induction refs as [|[e|] refs IH]; simpl; [done| |done].
  destruct (decide (pe_Category e = Some bic_id)); simpl.
  - by apply sublist_skip.
  - by apply sublist_cons.
Qed.

Lemma pick_elements_result (OST_Areas : Z) (host : PickHost) (bic_id : Z) :
  (pick_elements OST_Areas host bic_id).1
  = match picked_refs host with
    | Some refs => Returned (omap (expected bic_id) refs)
    | None => OperationCanceled
    end.
Proof. unfold pick_elements. destruct (decide _); by destruct (picked_refs host). Qed.

Lemma pick_elements_calls (OST_Areas : Z) (host : PickHost) (bic_id : Z) :
  (pick_elements OST_Areas host bic_id).2
  = if decide (bic_id = OST_Areas)
    then IsolateCategoriesTemporary bic_id (isolate_raises host) :: PickObjects
         :: (if isolate_raises host then []
             else [DisableTemporaryViewMode (disable_raises host)])
    else [PickObjects].
Proof.
  unfold pick_elements. destruct (decide _); [|by destruct (picked_refs host)].
  by destruct (isolate_raises host), (picked_refs host).
Qed.

(** X25. [pick_elements] asks the user once.  Only for the areas category does
    it switch the temporary isolation on before, and whenever that call
    succeeded it switches the isolation off again afterwards, also when
    the user cancels and the exception leaves the function.  It returns,
    in the order picked, exactly the picked elements of the asked
    category. *)
Theorem pick_elements_restores_view (OST_Areas : Z) (host : PickHost) (bic_id : Z) :
  let result := (pick_elements OST_Areas host bic_id).1 in
  let calls := (pick_elements OST_Areas host bic_id).2 in
  (exists before after, calls = before ++ PickObjects :: after /\
     (before = [] /\ after = [] /\ bic_id <> OST_Areas \/
      exists raised, before = [IsolateCategoriesTemporary bic_id raised] /\
        bic_id = OST_Areas /\
        after = if raised then [] else [DisableTemporaryViewMode (disable_raises host)])) /\
  (result = OperationCanceled <-> picked_refs host = None) /\
  (forall elems, result = Returned elems ->
     Forall (fun e => pe_Category e = Some bic_id) elems /\
     exists refs, picked_refs host = Some refs /\
       elems `sublist_of` omap id refs /\
       forall e, Some e ∈ refs -> pe_Category e = Some bic_id -> e ∈ elems).
Proof.
  intros result calls. subst result calls.
  rewrite pick_elements_result, pick_elements_calls. split; [|split].
  - destruct (decide (bic_id = OST_Areas)) as [->|Hne].
    + exists [IsolateCategoriesTemporary OST_Areas (isolate_raises host)]. eexists.
      split; [reflexivity|]. right. by exists (isolate_raises host).
    + exists [], []. split; [done|]. by left.
  - by destruct (picked_refs host).
  - intros elems. destruct (picked_refs host) as [refs|]; [|done].
    intros [= <-]. split.
    + apply Forall_forall. intros e (r & Hr & He)%list_elem_of_omap.
      destruct r as [e'|]; [|done]. simpl in He.
      destruct (decide (pe_Category e' = Some bic_id)); by simplify_eq.
    + exists refs. split; [done|]. split; [apply omap_expected_sublist|].
      intros e He Hcat. apply list_elem_of_omap. exists (Some e). split; [done|].
      simpl. by rewrite decide_True.
Qed.

End PickingFacts.
